(** * das_extractor: a shallow embedding of [das_extractor.py]

    The development follows the module top to bottom: the Python values the
    code manipulates (strings, lists, dicts, exceptions, warnings), the parts
    of [csv], [re] and [pandas] the code calls, then the functions of the
    module under their own names, and finally the properties.

    Conventions.
    - A Python [str] is a [string]; a character is a code point below 256
      (the archives are decoded from a single-byte encoding).
    - A raised exception is [Raise e]; a call to [warnings.warn] appends its
      message to the list of warnings carried next to the result.
    - A [dict] is an association list in insertion order, with Python's
      update-in-place on an existing key. *)

From Stdlib Require Import List String Ascii ZArith Lia Bool Arith PeanoNat.
From Stdlib Require Import DecimalNat DecimalString.
From Stdlib Require Import Floats.SpecFloat.
Import ListNotations.
Local Open Scope list_scope.

Infix "@@" := String.append (right associativity, at level 60).

(** ** Exceptions and warnings *)

Inductive exn : Type :=
| IndexError
| KeyError
| ValueError
| TypeError
| StopIteration
| EmptyDataError
| ParserError
| LookupError
| AttributeError
| OverflowError.

Inductive result (A : Type) : Type :=
| Ok (a : A)
| Raise (e : exn).
Arguments Ok {A} a.
Arguments Raise {A} e.

Definition result_bind {A B} (r : result A) (f : A -> result B) : result B :=
  match r with
  | Ok a => f a
  | Raise e => Raise e
  end.

Notation "x <-- r ;; k" := (result_bind r (fun x => k))
  (at level 61, r at next level, right associativity).

(** A computation that may warn and may raise. *)
Definition M (A : Type) : Type := (list string * result A)%type.

Definition ret {A} (a : A) : M A := ([], Ok a).
Definition raise {A} (e : exn) : M A := ([], Raise e).
Definition warn (msg : string) : M unit := ([msg], Ok tt).
Definition lift {A} (r : result A) : M A := ([], r).

Definition bind {A B} (m : M A) (f : A -> M B) : M B :=
  match m with
  | (w, Ok a) => let '(w', r) := f a in (w ++ w', r)
  | (w, Raise e) => (w, Raise e)
  end.

Notation "x <- m ;; k" := (bind m (fun x => k))
  (at level 61, m at next level, right associativity).
Notation "m ;;; k" := (bind m (fun _ => k))
  (at level 61, right associativity).

Definition warnings {A} (m : M A) : list string := fst m.
Definition outcome {A} (m : M A) : result A := snd m.

(** ** Python strings *)

Module Py.

Definition LF : ascii := ascii_of_nat 10.
Definition CR : ascii := ascii_of_nat 13.
Definition DQUOTE : ascii := ascii_of_nat 34.
Definition CRLF : string := String CR (String LF EmptyString).

Definition chars (s : string) : list ascii := list_ascii_of_string s.
Definition str (l : list ascii) : string := string_of_list_ascii l.

(** [str.isspace] / the regex class [\s] on code points below 256. *)
Definition isspace (c : ascii) : bool :=
  let n := nat_of_ascii c in
  ((9 <=? n) && (n <=? 13)) || ((28 <=? n) && (n <=? 32))
  || (n =? 133) || (n =? 160).

(** The regex class [[0-9]]. *)
Definition isdigit (c : ascii) : bool :=
  let n := nat_of_ascii c in (48 <=? n) && (n <=? 57).

(** [s.startswith(p)] and [s[:len(p)] == p]. *)
Definition startswith (p s : string) : bool := String.prefix p s.

(** [p in s]. *)
Fixpoint contains (p s : string) : bool :=
  String.prefix p s ||
  match s with
  | EmptyString => false
  | String _ s' => contains p s'
  end.

(** [s.split(sep)] for a non-empty separator: leftmost, non-overlapping.
    [skip] counts the characters of a separator still to be dropped. *)
Fixpoint split_go (sep : string) (skip : nat) (cur : list ascii) (s : string)
  : list string :=
  match s with
  | EmptyString => [str (rev cur)]
  | String c s' =>
      match skip with
      | S k => split_go sep k cur s'
      | O =>
          if String.prefix sep s
          then str (rev cur) :: split_go sep (String.length sep - 1) [] s'
          else split_go sep 0 (c :: cur) s'
      end
  end.

Definition split (sep s : string) : list string := split_go sep 0 [] s.

(** [sep.join(l)]. *)
Definition join (sep : string) (l : list string) : string := String.concat sep l.

(** [s.lstrip()]. *)
Fixpoint lstrip (s : string) : string :=
  match s with
  | EmptyString => EmptyString
  | String c s' => if isspace c then lstrip s' else s
  end.

Fixpoint lstrip_chars (set : list ascii) (l : list ascii) : list ascii :=
  match l with
  | [] => []
  | c :: l' =>
      if existsb (Ascii.eqb c) set then lstrip_chars set l' else l
  end.

(** [s.strip(set)]: characters of [set] removed at both ends. *)
Definition strip (set : list ascii) (s : string) : string :=
  str (rev (lstrip_chars set (rev (lstrip_chars set (chars s))))).

(** [s[:n]]. *)
Definition take (n : nat) (s : string) : string := str (firstn n (chars s)).

(** [s[-1]], which raises [IndexError] on the empty string. *)
Definition last_char (s : string) : result string :=
  match rev (chars s) with
  | [] => Raise IndexError
  | c :: _ => Ok (String c EmptyString)
  end.

(** [s[:-1]]. *)
Definition drop_last (s : string) : string :=
  str (firstn (String.length s - 1) (chars s)).

(** [s[a:-b]] for non-negative [a] and positive [b]. *)
Definition slice (a b : nat) (s : string) : string :=
  str (skipn a (firstn (String.length s - b) (chars s))).

(** [str(n)] for a natural number. *)
Definition of_nat (n : nat) : string := NilEmpty.string_of_uint (Nat.to_uint n).

(** [l[i]] on a list. *)
Definition getitem {A} (l : list A) (i : nat) : result A :=
  match nth_error l i with
  | Some a => Ok a
  | None => Raise IndexError
  end.

(** [max(l)] on a list of naturals; [ValueError] on the empty sequence. *)
Definition max (l : list nat) : result nat :=
  match l with
  | [] => Raise ValueError
  | _ => Ok (list_max l)
  end.

(** ** Dicts, in insertion order *)

Definition dict (V : Type) : Type := list (string * V).

Fixpoint get {V} (d : dict V) (k : string) : option V :=
  match d with
  | [] => None
  | (k', v) :: d' => if String.eqb k k' then Some v else get d' k
  end.

(** [d[k]]. *)
Definition subscript {V} (d : dict V) (k : string) : result V :=
  match get d k with
  | Some v => Ok v
  | None => Raise KeyError
  end.

(** [d[k] = v]: an existing key keeps its position. *)
Fixpoint set {V} (d : dict V) (k : string) (v : V) : dict V :=
  match d with
  | [] => [(k, v)]
  | (k', v') :: d' =>
      if String.eqb k k' then (k', v) :: d' else (k', v') :: set d' k v
  end.

End Py.

(** ** Archive Reader *)

(** An opened [ZipFile]: its members in directory order, each with the raw
    bytes it holds. *)
Record ZipMember : Type := { member_name : string; member_data : string }.
Definition ZipFile : Type := list ZipMember.

Definition namelist (zf : ZipFile) : list string := map member_name zf.

(** [zf.read(name)]: the directory is indexed by name, a later member of the
    same name replacing an earlier one. *)
Fixpoint zf_read (zf : ZipFile) (name : string) : result string :=
  match zf with
  | [] => Raise KeyError
  | m :: zf' =>
      match zf_read zf' name with
      | Ok d => Ok d
      | Raise _ =>
          if String.eqb name (member_name m) then Ok (member_data m)
          else Raise KeyError
      end
  end.

(** [read_daszip]; [decode] is [bytes.decode(encoding)]. *)
Definition read_daszip (zf : ZipFile) (internal_file_name_pattern : string)
  (decode : string -> result string) : M string :=
  let zf_list := namelist zf in
  let positives :=
    filter (fun file => Py.contains internal_file_name_pattern file) zf_list in
  (if 1 <? List.length positives
   then warn ("Too many files found in the zip archive. File selected: "
              @@ hd EmptyString positives)
   else ret tt) ;;;
  p0 <- lift (Py.getitem positives 0) ;;
  raw <- lift (zf_read zf p0) ;;
  lift (decode raw).

(** ** Tables *)

(** A cell of a [DataFrame].  A field read from text is a [Str], the text
    of the field; a missing value is the float NaN, as pandas stores it;
    [Float] cells come from [astype(float)], [Timedelta] cells (a count of
    nanoseconds, held in 64 bits) from the difference of two timestamps, [NaT]
    is the missing timestamp and [PyNone] the Python [None]. *)
Inductive value : Type :=
| Str (s : string)
| Float (f : spec_float)
| Timedelta (ns : Z)
| NaT
| PyNone.

Definition NaN : value := Float S754_nan.

(** [pd.isnull] on one cell. *)
Definition isnull (v : value) : bool :=
  match v with
  | Float S754_nan => true
  | NaT => true
  | PyNone => true
  | _ => false
  end.

(** A table: the column names and the rows, in order.  The row index is the
    default one (positions 0, 1, ...), so a label is a position. *)
Record DataFrame : Type := { columns : list string; rows : list (list value) }.

(** [l.index(name)], as an option. *)
Fixpoint index_of (name : string) (l : list string) : option nat :=
  match l with
  | [] => None
  | c :: l' =>
      if String.eqb name c then Some 0 else option_map S (index_of name l')
  end.

Definition column_index (name : string) (df : DataFrame) : option nat :=
  index_of name (columns df).

Definition cell (i : nat) (row : list value) : value := nth i row NaN.

(** [df.iloc[:, i]]. *)
Definition iloc_col (i : nat) (df : DataFrame) : result (list value) :=
  if i <? List.length (columns df)
  then Ok (map (cell i) (rows df))
  else Raise IndexError.

(** [df[name]]. *)
Definition getcol (name : string) (df : DataFrame) : result (list value) :=
  match column_index name df with
  | Some i => Ok (map (cell i) (rows df))
  | None => Raise KeyError
  end.

Fixpoint set_nth {A} (i : nat) (a : A) (pad : A) (l : list A) : list A :=
  match i, l with
  | O, [] => [a]
  | O, _ :: l' => a :: l'
  | S i', [] => pad :: set_nth i' a pad []
  | S i', x :: l' => x :: set_nth i' a pad l'
  end.

(** [df[name] = vals], for a series [vals] aligned with the rows: an existing
    column is replaced in place, a new one is appended on the right. *)
Definition setcol (name : string) (vals : list value) (df : DataFrame)
  : DataFrame :=
  let i := match column_index name df with
           | Some i => i
           | None => List.length (columns df)
           end in
  {| columns := set_nth i name EmptyString (columns df);
     rows := map (fun rv => set_nth i (snd rv) NaN (fst rv))
                 (combine (rows df) vals) |}.

(** [df[mask]]: the rows at which the boolean series is true. *)
Fixpoint boolean_index {A} (mask : list bool) (l : list A) : list A :=
  match mask, l with
  | b :: mask', x :: l' =>
      if b then x :: boolean_index mask' l' else boolean_index mask' l'
  | _, _ => []
  end.

Definition select_rows (mask : list bool) (df : DataFrame) : DataFrame :=
  {| columns := columns df; rows := boolean_index mask (rows df) |}.

(** ** The csv dialect: semicolon-delimited, double-quote aware *)

Module Csv.

Inductive state : Type :=
| StartRecord
| StartField
| InField
| InQuoted
| QuoteInQuoted.

Definition SEMI : ascii := ascii_of_nat 59.

Definition push (f : string) (r : list string * (state * list ascii))
  : list string * (state * list ascii) :=
  (f :: fst r, snd r).

(** The characters of one line, read in state [st] with [cur] the characters
    of the pending field, last first: the fields completed on the line, then
    the state and the pending field at its end.  A quoted field may hold the
    delimiter; a doubled quote inside it stands for one quote. *)
Fixpoint scan (st : state) (cur : list ascii) (s : string)
  : list string * (state * list ascii) :=
  match s with
  | EmptyString => ([], (st, cur))
  | String c s' =>
      match st with
      | StartRecord | StartField =>
          if Ascii.eqb c SEMI then push EmptyString (scan StartField [] s')
          else if Ascii.eqb c Py.DQUOTE then scan InQuoted [] s'
          else scan InField [c] s'
      | InField =>
          if Ascii.eqb c SEMI then push (Py.str (rev cur)) (scan StartField [] s')
          else scan InField (c :: cur) s'
      | InQuoted =>
          if Ascii.eqb c Py.DQUOTE then scan QuoteInQuoted cur s'
          else scan InQuoted (c :: cur) s'
      | QuoteInQuoted =>
          if Ascii.eqb c Py.DQUOTE then scan InQuoted (c :: cur) s'
          else if Ascii.eqb c SEMI
               then push (Py.str (rev cur)) (scan StartField [] s')
               else scan InField (c :: cur) s'
      end
  end.

(** A quoted field is still open. *)
Definition open_quote (st : state) : bool :=
  match st with
  | InQuoted => true
  | _ => false
  end.

(** What the end of a record adds: nothing after an empty line, else the
    pending field. *)
Definition close (e : state * list ascii) : list string :=
  match fst e with
  | StartRecord => []
  | StartField => [EmptyString]
  | _ => [Py.str (rev (snd e))]
  end.

(** The record of a line taken alone: an empty line gives the empty
    record. *)
Definition fields (line : string) : list string :=
  let r := scan StartRecord [] line in
  fst r ++ close (snd r).

(** The line leaves no quoted field open. *)
Definition closed (line : string) : bool :=
  negb (open_quote (fst (snd (scan StartRecord [] line)))).

(** [csv.reader] over a list of lines, with the semicolon as delimiter and
    the double quote as quote character.  A quoted field left open at the end
    of a line goes on with the next line; when the lines run out inside a
    quoted field the record is given as it stands.  The lines hold no line
    break of their own. *)
Fixpoint reader_go (st : state) (cur : list ascii) (acc : list string)
  (lines : list string) : list (list string) :=
  match lines with
  | [] => if open_quote st then [acc ++ [Py.str (rev cur)]] else []
  | l :: rest =>
      let r := scan st cur l in
      if open_quote (fst (snd r))
      then reader_go InQuoted (snd (snd r)) (acc ++ fst r) rest
      else (acc ++ fst r ++ close (snd r)) :: reader_go StartRecord [] [] rest
  end.

Definition reader (lines : list string) : list (list string) :=
  reader_go StartRecord [] [] lines.

End Csv.

(** ** The part of [pandas.read_csv] the module relies on

    What is modelled: the split of the text into lines, blank lines skipped,
    the delimiter and the quote character, a quoted field running over
    several lines, [ParserError] when the text ends inside a quoted field,
    the default markers of a missing value, the names given to empty and to
    repeated header fields, [ValueError] on repeated [names], rows shorter
    than the table filled with NaN, [EmptyDataError] when there is no line
    to take columns from, [ParserError] when a row has more fields than the
    table is wide, and a first data row wider than the header giving its
    leading fields to the index.  What is not: the conversion to numbers of
    a column whose fields all read as numbers (a cell keeps the text of its
    field), and the index itself. *)

Module Pandas.

(** The lines of a text: [\n], [\r] and [\r\n] each end a line. *)
Fixpoint text_lines_go (cur : list ascii) (s : string) : list string :=
  match s with
  | EmptyString => [Py.str (rev cur)]
  | String c s' =>
      if Ascii.eqb c Py.CR then
        match s' with
        | String c' s'' =>
            if Ascii.eqb c' Py.LF
            then Py.str (rev cur) :: text_lines_go [] s''
            else Py.str (rev cur) :: text_lines_go [] s'
        | EmptyString => Py.str (rev cur) :: text_lines_go [] s'
        end
      else if Ascii.eqb c Py.LF then Py.str (rev cur) :: text_lines_go [] s'
      else text_lines_go (c :: cur) s'
  end.

Definition text_lines (text : string) : list string := text_lines_go [] text.

(** A line of spaces and tabs only is skipped. *)
Definition blank_line (l : string) : bool :=
  forallb (fun c => Ascii.eqb c (ascii_of_nat 32) || Ascii.eqb c (ascii_of_nat 9))
          (Py.chars l).

(** The records of a text, given by its lines.  A blank line is skipped where
    a record would start; inside a quoted field the line break belongs to the
    field (it is kept as [\n]); a text that ends inside a quoted field is
    refused. *)
Fixpoint tokenize_go (st : Csv.state) (cur : list ascii) (acc : list string)
  (lines : list string) : result (list (list string)) :=
  match lines with
  | [] => if Csv.open_quote st then Raise ParserError else Ok []
  | l :: rest =>
      if negb (Csv.open_quote st) && blank_line l
      then tokenize_go Csv.StartRecord [] [] rest
      else
        let r := Csv.scan st (if Csv.open_quote st then Py.LF :: cur else cur) l in
        if Csv.open_quote (fst (snd r))
        then tokenize_go Csv.InQuoted (snd (snd r)) (acc ++ fst r) rest
        else
          match tokenize_go Csv.StartRecord [] [] rest with
          | Ok recs => Ok ((acc ++ fst r ++ Csv.close (snd r)) :: recs)
          | Raise e => Raise e
          end
  end.

Definition tokenize (lines : list string) : result (list (list string)) :=
  tokenize_go Csv.StartRecord [] [] lines.

(** [skiprows=1]: the first record is passed over, through the end of a
    quoted field it leaves open. *)
Fixpoint skip_record (st : Csv.state) (lines : list string) : list string :=
  match lines with
  | [] => []
  | l :: rest =>
      if Csv.open_quote (fst (snd (Csv.scan st [] l)))
      then skip_record Csv.InQuoted rest
      else rest
  end.

Definition na_values : list string :=
  [ EmptyString; "#N/A"; "#N/A N/A"; "#NA"; "-1.#IND"; "-1.#QNAN"; "-NaN";
    "-nan"; "1.#IND"; "1.#QNAN"; "<NA>"; "N/A"; "NA"; "NULL"; "NaN"; "n/a";
    "nan"; "null" ]%string.

Definition to_cell (field : string) : value :=
  if existsb (String.eqb field) na_values then NaN else Str field.

Definition pad_row (width : nat) (r : list value) : list value :=
  r ++ repeat NaN (width - List.length r).

(** An empty header field is named after its position. *)
Definition unnamed (header : list string) : list string :=
  map (fun ih => match snd ih with
                 | EmptyString => "Unnamed: " @@ Py.of_nat (fst ih)
                 | h => h
                 end)
      (combine (seq 0 (List.length header)) header).

Definition count_of (counts : Py.dict nat) (col : string) : nat :=
  match Py.get counts col with
  | Some n => n
  | None => 0
  end.

(** A name met before gets the number of times it was met as a suffix, and
    again so while the suffixed name was met before (the loop of pandas 1;
    later versions also step over a suffixed name that occurs further on in
    the header).  Each turn of the loop meets another name of [counts], so
    [fuel] above their number is never used up. *)
Fixpoint dedup_name (fuel : nat) (counts : Py.dict nat) (col : string)
  : string * Py.dict nat :=
  match count_of counts col, fuel with
  | S n, S fuel' =>
      dedup_name fuel' (Py.set counts col (S (S n)))
                 (col @@ "." @@ Py.of_nat (S n))
  | n, _ => (col, Py.set counts col (S n))
  end.

Fixpoint dedup_names (counts : Py.dict nat) (names : list string) : list string :=
  match names with
  | [] => []
  | col :: rest =>
      let r := dedup_name (S (List.length counts)) counts col in
      fst r :: dedup_names (snd r) rest
  end.

(** The column names read off a header. *)
Definition header_names (header : list string) : list string :=
  dedup_names [] (unnamed header).

(** No name occurs twice. *)
Fixpoint distinct (names : list string) : bool :=
  match names with
  | [] => true
  | n :: rest => negb (existsb (String.eqb n) rest) && distinct rest
  end.

(** [pd.read_csv(StringIO(text), sep=';')]. *)
Definition read_csv (text : string) : result DataFrame :=
  match tokenize (text_lines text) with
  | Raise e => Raise e
  | Ok [] => Raise EmptyDataError
  | Ok (header :: recs) =>
      let width := match recs with
                   | [] => List.length header
                   | r :: _ => Nat.max (List.length header) (List.length r)
                   end in
      if existsb (fun r => width <? List.length r) recs
      then Raise ParserError
      else Ok {| columns := header_names header;
                 rows := map (fun r => skipn (width - List.length header)
                                         (pad_row width (map to_cell r)))
                             recs |}
  end.

(** [pd.read_csv(StringIO(text), names=names, sep=';', skiprows=1)]:
    repeated names are refused before anything is read, the first record is
    skipped whatever it holds, and the table is as wide as [names]. *)
Definition read_csv_names (names : list string) (text : string)
  : result DataFrame :=
  if negb (distinct names) then Raise ValueError
  else
    match tokenize (skip_record Csv.StartRecord (text_lines text)) with
    | Raise e => Raise e
    | Ok recs =>
        let width := List.length names in
        if existsb (fun r => width <? List.length r) recs
        then Raise ParserError
        else Ok {| columns := names;
                   rows := map (fun r => pad_row width (map to_cell r)) recs |}
    end.

End Pandas.

(** ** Column Name Normalizer *)

Module Re.

(** [re.sub] for a pattern that never matches the empty string: [m s] is the
    length of the match that starts at the head of [s], if there is one.
    Matches are taken leftmost and do not overlap. *)
Fixpoint sub_go (m : string -> option nat) (repl : string) (skip : nat)
  (s : string) : string :=
  match s with
  | EmptyString => EmptyString
  | String c s' =>
      match skip with
      | S k => sub_go m repl k s'
      | O =>
          match m s with
          | Some n => repl @@ sub_go m repl (n - 1) s'
          | None => String c (sub_go m repl 0 s')
          end
      end
  end.

Definition sub (m : string -> option nat) (repl s : string) : string :=
  sub_go m repl 0 s.

Definition DOT : ascii := ascii_of_nat 46.
Definition LBRACKET : ascii := ascii_of_nat 91.

(** [Unit [0-9]\.] *)
Definition unit_prefix (s : string) : option nat :=
  if String.prefix "Unit " s then
    match Py.chars (Py.str (skipn 5 (Py.chars s))) with
    | d :: p :: _ => if Py.isdigit d && Ascii.eqb p DOT then Some 7 else None
    | _ => None
    end
  else None.

(** [\s?[0-9]\.]: the optional blank is tried first. *)
Definition digit_dot (s : string) : option nat :=
  match s with
  | String a (String b rest) =>
      if Py.isspace a && Py.isdigit b &&
         match rest with String c _ => Ascii.eqb c DOT | EmptyString => false end
      then Some 3
      else if Py.isdigit a && Ascii.eqb b DOT then Some 2 else None
  | _ => None
  end.

(** [[0-9]\s\[] *)
Definition digit_blank_bracket (s : string) : option nat :=
  match s with
  | String a (String b (String c _)) =>
      if Py.isdigit a && Py.isspace b && Ascii.eqb c LBRACKET
      then Some 3 else None
  | _ => None
  end.

End Re.

(** The micro sign, code point 181. *)
Definition MICRO : string := String (ascii_of_nat 181) EmptyString.

Definition das_converter_dict : Py.dict string :=
  [ ("Inoculation Time []", "InoculationTime []");
    ("pH.Out []", "pH.Out [%]");
    ("CTR [mM/h]", "CTR.PV [mMol/h]");
    ("RQ []", "RQ.PV []");
    ("AU []", "ODAU.PV []");
    ("CX []", "ODCX.PV []");
    ("Level.PV [" @@ MICRO @@ "S]", "Lvl.PV [" @@ MICRO @@ "S]");
    ("MA.PV [g]", "BalA.MPV [g]");
    ("MB.PV [g]", "BalB.MPV [g]");
    ("Torque.PV [mNm]", "N.TStirPV [mNm]");
    ("Offline.A []", "OfflineA.OfflineA []");
    ("Offline.B []", "OfflineB.OfflineB []");
    ("Offline.C []", "OfflineC.OfflineC []");
    ("Offline.D []", "OfflineD.OfflineD []");
    ("OTR [mM/h]", "OTR.PV [mMol/h]");
    ("V.PV [mL]", "V.VPV [mL]") ]%string.

(** [Series.replace(d)] on one name: a name equal to a key becomes its value. *)
Definition replace_by (d : Py.dict string) (name : string) : string :=
  match Py.get d name with
  | Some v => v
  | None => name
  end.

(** The four steps on one column name. *)
Definition standardize_name (name : string) : string :=
  let name := Re.sub Re.unit_prefix EmptyString name in
  let name := Re.sub Re.digit_dot "." name in
  let name := Re.sub Re.digit_blank_bracket " [" name in
  replace_by das_converter_dict name.

Definition h_standardize_das_cdf_cols_names (cols_names : list string)
  : list string :=
  map standardize_name cols_names.

(** ** Irregular-CSV Parser *)

Definition unknown_names (k : nat) : list string :=
  map (fun i => "unknown" @@ Py.of_nat (i + 1)) (seq 0 k).

Definition h_parse_irregular_csv (irregular_csv : list string)
  : result DataFrame :=
  match Csv.reader irregular_csv with
  | [] => Raise StopIteration
  | header :: reader =>
      match Py.max (map (@List.length string) reader) with
      | Raise e => Raise e
      | Ok num_cols =>
          let names := header ++ unknown_names (num_cols - List.length header) in
          Pandas.read_csv_names names
            (Py.join (String Py.LF EmptyString) irregular_csv)
      end
  end.

(** ** Section Splitter *)

Record splitter_state : Type :=
  { overwriting_risk : bool; sections_dict : Py.dict DataFrame }.

Definition setup_warning : string :=
  "Specific warning: new section 'Setup#' is being opened before the previous one was closed ('Profiles' section, which is the last section of each 'Setup#', not found). This file version was not tested for. Errors may arise".

(** The body of the loop over the sections. *)
Definition process_section (st : splitter_state) (section : string)
  : M splitter_state :=
  let section_lines_list := Py.split Py.CRLF (Py.lstrip section) in
  let section_name :=
    Py.strip [Re.LBRACKET; Py.DQUOTE; ascii_of_nat 93]
             (hd EmptyString section_lines_list) in
  let setup_number := EmptyString in
  let section_name :=
    if overwriting_risk st then section_name @@ setup_number
    else section_name in
  nr <- (if String.eqb (Py.take 5 section_name) "Setup"
            && negb (String.eqb section_name "Setups")
         then
           setup_number <- lift (Py.last_char section_name) ;;
           section_name <- (if overwriting_risk st
                            then warn setup_warning ;;;
                                 ret (Py.drop_last section_name)
                            else ret section_name) ;;
           ret (section_name, true)
         else ret (section_name, overwriting_risk st)) ;;
  let section_name := fst nr in
  let risk :=
    if String.eqb (Py.take 8 section_name) "Profiles" then false else snd nr in
  let section_content := tl section_lines_list in
  match Pandas.read_csv (Py.join (String Py.LF EmptyString) section_content) with
  | Ok section_df =>
      let section_df :=
        if Py.startswith "TrackData" section_name
        then {| columns := h_standardize_das_cdf_cols_names (columns section_df);
                rows := rows section_df |}
        else section_df in
      ret {| overwriting_risk := risk;
             sections_dict := Py.set (sections_dict st) section_name section_df |}
  | Raise EmptyDataError =>
      ret {| overwriting_risk := risk; sections_dict := sections_dict st |}
  | Raise ParserError =>
      section_df <- lift (h_parse_irregular_csv section_content) ;;
      ret {| overwriting_risk := risk;
             sections_dict := Py.set (sections_dict st) section_name section_df |}
  | Raise e => raise e
  end.

Fixpoint convert_sections (st : splitter_state) (sections_list : list string)
  : M splitter_state :=
  match sections_list with
  | [] => ret st
  | section :: rest =>
      st' <- process_section st section ;;
      convert_sections st' rest
  end.

Definition convert_daszip_2_dasdict (internal_file : string)
  : M (Py.dict DataFrame) :=
  let sections_list := Py.split (Py.CRLF @@ Py.CRLF) internal_file in
  st <- convert_sections {| overwriting_risk := false; sections_dict := [] |}
                         sections_list ;;
  ret (sections_dict st).

(** ** Event Extractor, inoculation time and Reactor Merge Engine

    Two library conversions are parameters of this part: [astype_float] is
    the conversion of a string to a float ([Series.astype(float)] on one
    element, [ValueError] when the string is no number) and [to_datetime] is
    [pd.to_datetime] on one string, giving nanoseconds since the epoch. *)

Fixpoint mapM {A B} (f : A -> result B) (l : list A) : result (list B) :=
  match l with
  | [] => Ok []
  | a :: l' =>
      b <-- f a ;;
      bs <-- mapM f l' ;;
      Ok (b :: bs)
  end.

Definition SFzero : spec_float := S754_zero false.

(** [series.reindex(mask.index)] after a selection by [mask]: the selected
    positions get the values back, the others NaN. *)
Fixpoint reindex (mask : list bool) (vals : list spec_float) : list spec_float :=
  match mask with
  | [] => []
  | true :: mask' =>
      match vals with
      | v :: vals' => v :: reindex mask' vals'
      | [] => S754_nan :: reindex mask' []
      end
  | false :: mask' => S754_nan :: reindex mask' vals
  end.

(** [series.str]: the accessor is there for a column that holds a string, for
    a column of [None] alone and for a column without rows; a column of
    numbers, of missing values or of time differences has none, and asking
    for it raises. *)
Definition holds_str (v : value) : bool :=
  match v with
  | Str _ => true
  | _ => false
  end.

Definition holds_none (v : value) : bool :=
  match v with
  | PyNone => true
  | _ => false
  end.

Definition str_accessor (series : list value) : result unit :=
  if existsb holds_str series || forallb holds_none series
  then Ok tt
  else Raise AttributeError.

(** [series.str.startswith(prefix).fillna(False)], once the accessor is
    there. *)
Definition str_startswith_mask (prefix : string) (series : list value)
  : list bool :=
  map (fun v => match v with
                | Str s => Py.startswith prefix s
                | _ => false
                end) series.

(** [series.str[a:-b]] on selected string cells. *)
Definition str_slice (a b : nat) (v : value) : string :=
  match v with
  | Str s => Py.slice a b s
  | _ => EmptyString
  end.

(** [series.where(cond)] on one float: kept when [cond] holds, else NaN. *)
Definition where_ (cond : spec_float -> bool) (x : spec_float) : spec_float :=
  if cond x then x else S754_nan.

Section Conversions.

Variable astype_float : string -> result spec_float.
Variable to_datetime : string -> result Z.

Definition vol_change_float (description : list value)
  : result (list spec_float) :=
  let fltr_vol_change := str_startswith_mask "Added volume" description in
  floats <-- mapM (fun v => astype_float (str_slice 13 13 v))
                  (boolean_index fltr_vol_change description) ;;
  Ok (reindex fltr_vol_change floats).

Definition h_extract_volume_changes (events_df : DataFrame) : result DataFrame :=
  description <-- getcol "Description" events_df ;;
  _ <-- str_accessor description ;;
  vol_change_float <-- vol_change_float description ;;
  let new_events_df := events_df in
  let new_events_df :=
    setcol "Vol_added"
      (map (fun x => Float (where_ (fun x => SFleb SFzero x) x)) vol_change_float)
      new_events_df in
  let new_events_df :=
    setcol "Liquid_added" (map (fun _ => NaN) (rows events_df)) new_events_df in
  let new_events_df :=
    setcol "Vol_removed"
      (map (fun x => Float (SFabs (where_ (fun x => SFltb x SFzero) x)))
           vol_change_float)
      new_events_df in
  let new_events_df :=
    setcol "Feed_pump" (map (fun _ => PyNone) (rows events_df)) new_events_df in
  let new_events_df :=
    setcol "Feed_balance" (map (fun _ => PyNone) (rows events_df)) new_events_df in
  Ok new_events_df.

(** [series.first_valid_index()] *)
Fixpoint first_valid_index (series : list value) : option nat :=
  match series with
  | [] => None
  | v :: series' =>
      if isnull v then option_map S (first_valid_index series') else Some 0
  end.

(** [pd.to_datetime] on one cell: a missing value gives [NaT] (here [None]).
    The cells it meets in this module are strings read from the text or
    missing values; other cells are rejected. *)
Definition to_datetime_value (v : value) : result (option Z) :=
  match v with
  | Str s => t <-- to_datetime s ;; Ok (Some t)
  | Float S754_nan | NaT | PyNone => Ok None
  | _ => Raise TypeError
  end.

(** [timestamp - inoct] on one cell. *)
Definition timedelta (inoct t : option Z) : value :=
  match t, inoct with
  | Some t, Some r => Timedelta (t - r)
  | _, _ => NaT
  end.

(** A difference of timestamps is a count of nanoseconds in 64 bits. *)
Definition int64 (d : Z) : bool := ((- 2 ^ 63 <? d) && (d <? 2 ^ 63))%Z.

Definition fits (inoct t : option Z) : bool :=
  match t, inoct with
  | Some t, Some r => int64 (t - r)
  | _, _ => true
  end.

(** [timestamp - inoct] on the column: [OverflowError] when a difference does
    not fit. *)
Definition sub_timestamp (inoct : option Z) (timestamp : list (option Z))
  : result (list value) :=
  if forallb (fits inoct) timestamp
  then Ok (map (timedelta inoct) timestamp)
  else Raise OverflowError.

Definition inoctime (cdf : DataFrame) (itime : option value)
  : result (list value) :=
  itime <-- match itime with
            | Some v => Ok v
            | None =>
                col2 <-- iloc_col 2 cdf ;;
                match first_valid_index col2 with
                | None => Raise TypeError
                | Some itime_idx =>
                    col0 <-- iloc_col 0 cdf ;;
                    Py.getitem col0 itime_idx
                end
            end ;;
  inoct <-- to_datetime_value itime ;;
  col0 <-- iloc_col 0 cdf ;;
  timestamp <-- mapM to_datetime_value col0 ;;
  sub_timestamp inoct timestamp.

End Conversions.

(** ** [pd.merge_ordered(left, right, on=key)]

    The outer join on one key column, rows in ascending order of the key.  A
    left row is paired with every right row of the same key, or filled with
    NaN on the right when there is none; a right row whose key occurs in no
    left row is filled with NaN on the left.  Rows of one key keep the order
    of the left table, then of the right one.  Keys are compared as text, a
    missing key ([NaN]) sorting last and matching another missing key. *)

Module Merge.

Definition key_eqb (a b : value) : bool :=
  match a, b with
  | Str s, Str t => String.eqb s t
  | Timedelta x, Timedelta y => Z.eqb x y
  | Float x, Float y => SFeqb x y || (isnull a && isnull b)
  | _, _ => isnull a && isnull b
  end.

Definition key_leb (a b : value) : bool :=
  match a, b with
  | Str s, Str t => String.leb s t
  | Timedelta x, Timedelta y => Z.leb x y
  | _, _ => isnull b || negb (isnull a)
  end.

Fixpoint insert (k : nat) (x : list value) (l : list (list value))
  : list (list value) :=
  match l with
  | [] => [x]
  | y :: l' =>
      if key_leb (cell k x) (cell k y) then x :: l else y :: insert k x l'
  end.

(** Stable sort on column [k]. *)
Fixpoint sort (k : nat) (l : list (list value)) : list (list value) :=
  match l with
  | [] => []
  | x :: l' => insert k x (sort k l')
  end.

Fixpoint remove_nth {A} (i : nat) (l : list A) : list A :=
  match i, l with
  | _, [] => []
  | O, _ :: l' => l'
  | S i', x :: l' => x :: remove_nth i' l'
  end.

(** A name carried by both tables, the key apart, gets a suffix. *)
Definition suffixed (sfx key : string) (others : list string) (c : string)
  : string :=
  if negb (String.eqb c key) && existsb (String.eqb c) others
  then c @@ sfx else c.

Definition matches (kl kr : nat) (l : list value) (right : list (list value))
  : list (list value) :=
  filter (fun r => key_eqb (cell kl l) (cell kr r)) right.

(** The rows a left row gives. *)
Definition left_rows (nl nr kl kr : nat) (right : list (list value))
  (l : list value) : list (list value) :=
  let l' := Pandas.pad_row nl (firstn nl l) in
  match matches kl kr l right with
  | [] => [l' ++ repeat NaN (nr - 1)]
  | ms => map (fun r => l' ++ remove_nth kr (Pandas.pad_row nr (firstn nr r))) ms
  end.

(** The right rows that no left row matches. *)
Definition right_only (kl kr : nat) (left right : list (list value))
  : list (list value) :=
  filter (fun r => negb (existsb (fun l => key_eqb (cell kl l) (cell kr r)) left))
         right.

Definition right_row (nl nr kl kr : nat) (r : list value) : list value :=
  set_nth kl (cell kr r) NaN (repeat NaN nl)
  ++ remove_nth kr (Pandas.pad_row nr (firstn nr r)).

Definition merge_ordered (left right : DataFrame) (on : string)
  : result DataFrame :=
  match column_index on left, column_index on right with
  | Some kl, Some kr =>
      let nl := List.length (columns left) in
      let nr := List.length (columns right) in
      Ok {| columns :=
              map (suffixed "_x" on (columns right)) (columns left)
              ++ map (suffixed "_y" on (columns left))
                     (remove_nth kr (columns right));
            rows :=
              sort kl
                (flat_map (left_rows nl nr kl kr (rows right)) (rows left)
                 ++ map (right_row nl nr kl kr)
                        (right_only kl kr (rows left) (rows right))) |}
  | _, _ => Raise KeyError
  end.

End Merge.

(** ** Reactor Merge Engine *)

(** [series.str.contains(pat, na=False)] for a pattern without regex
    operators, once the accessor is there. *)
Definition str_contains_mask (pat : string) (series : list value) : list bool :=
  map (fun v => match v with
                | Str s => Py.contains pat s
                | _ => false
                end) series.

(** The boolean series [fltr_reactor_events] of one reactor. *)
Definition fltr_reactor_events (strict : bool) (reactor_num : string)
  (reference : list value) : list bool :=
  let fltr := str_contains_mask ("Unit " @@ reactor_num) reference in
  if negb strict
  then map (fun bv => fst bv || isnull (snd bv)) (combine fltr reference)
  else fltr.

(** [int(s)] on a one-character string. *)
Definition int_of_char (s : string) : result nat :=
  match s with
  | String c EmptyString =>
      if Py.isdigit c then Ok (nat_of_ascii c - 48) else Raise ValueError
  | _ => Raise ValueError
  end.

(** [d[k] = v] on a dict with integer keys. *)
Fixpoint set_int {V} (d : list (nat * V)) (k : nat) (v : V) : list (nat * V) :=
  match d with
  | [] => [(k, v)]
  | (k', v') :: d' =>
      if Nat.eqb k k' then (k', v) :: d' else (k', v') :: set_int d' k v
  end.

Section Engine.

Variable astype_float : string -> result spec_float.
Variable to_datetime : string -> result Z.

(** The body of the loop over the reactors.  The pattern given to
    [str.contains] is read literally, which is what it means for a reactor
    number that is a digit; for any other last character [int] raises at the
    end of the iteration. *)
Definition merge_reactor (strict : bool) (events_df : DataFrame)
  (new_cdf_dict : list (nat * DataFrame)) (reactor : string * DataFrame)
  : result (list (nat * DataFrame)) :=
  let '(reactor_name, reactor_data) := reactor in
  reactor_num <-- Py.last_char reactor_name ;;
  reference <-- getcol "Reference" events_df ;;
  _ <-- str_accessor reference ;;
  let fltr := fltr_reactor_events strict reactor_num reference in
  cdf_merged <-- Merge.merge_ordered reactor_data (select_rows fltr events_df)
                   "Timestamp" ;;
  ino <-- inoctime to_datetime cdf_merged None ;;
  let cdf_merged := setcol "InoculationTime []" ino cdf_merged in
  n <-- int_of_char reactor_num ;;
  Ok (set_int new_cdf_dict n cdf_merged).

Fixpoint merge_reactors (strict : bool) (events_df : DataFrame)
  (new_cdf_dict : list (nat * DataFrame)) (cdf_dict : Py.dict DataFrame)
  : result (list (nat * DataFrame)) :=
  match cdf_dict with
  | [] => Ok new_cdf_dict
  | reactor :: rest =>
      d <-- merge_reactor strict events_df new_cdf_dict reactor ;;
      merge_reactors strict events_df d rest
  end.

Definition convert_dasdict_2_cdf_dict (dasdict : Py.dict DataFrame)
  (strict : bool) : result (list (nat * DataFrame)) :=
  let cdf_dict :=
    filter (fun kv => Py.startswith "TrackData" (fst kv)) dasdict in
  events <-- Py.subscript dasdict "Events" ;;
  events_df <-- h_extract_volume_changes astype_float events ;;
  let new_cdf_dict := [] in
  merge_reactors strict events_df new_cdf_dict cdf_dict.

End Engine.

(** ** Instances of the two conversions, for the worked examples *)

Module Instances.

Definition prec : Z := 53.
Definition emax : Z := 1024.

(** The float nearest to an integer. *)
Definition float_of_Z (n : Z) : spec_float := binary_normalize prec emax n 0 false.

Definition nat_of_digits (s : string) : option nat :=
  match s with
  | EmptyString => None
  | _ => option_map Nat.of_uint (NilEmpty.uint_of_string s)
  end.

(** Plain decimal numbers, [-12], [5.00], [0.25]: the quotient of two
    integers, rounded once. *)
Definition decimal_float (s : string) : result spec_float :=
  let '(neg, body) := match s with
                      | String "-" r => (true, r)
                      | _ => (false, s)
                      end in
  let '(ip, fp) := match Py.split "." body with
                   | [i] => (i, EmptyString)
                   | [i; f] => (i, f)
                   | _ => (EmptyString, EmptyString)
                   end in
  match nat_of_digits (ip @@ fp) with
  | None => Raise ValueError
  | Some n =>
      let x := SFdiv prec emax (float_of_Z (Z.of_nat n))
                     (float_of_Z (10 ^ Z.of_nat (String.length fp))%Z) in
      Ok (if neg then SFopp x else x)
  end.

(** Days from 1970-01-01 to a date of the proleptic Gregorian calendar. *)
Definition days_from_civil (y m d : Z) : Z :=
  (let y := if m <=? 2 then y - 1 else y in
   let era := y / 400 in
   let yoe := y - era * 400 in
   let doy := (153 * (if 2 <? m then m - 3 else m + 9) + 2) / 5 + d - 1 in
   let doe := yoe * 365 + yoe / 4 - yoe / 100 + doy in
   era * 146097 + doe - 719468)%Z.

Definition field (a n : nat) (s : string) : option Z :=
  option_map Z.of_nat (nat_of_digits (String.substring a n s)).

(** Timestamps written [YYYY-MM-DD HH:MM:SS], in nanoseconds since the epoch. *)
Definition iso_datetime (s : string) : result Z :=
  match field 0 4 s, field 5 2 s, field 8 2 s,
        field 11 2 s, field 14 2 s, field 17 2 s with
  | Some y, Some mo, Some d, Some h, Some mi, Some se =>
      if (String.length s =? 19)%nat
      then Ok ((((days_from_civil y mo d * 24 + h) * 60 + mi) * 60 + se)
               * 1000000000)%Z
      else Raise ValueError
  | _, _, _, _, _, _ => Raise ValueError
  end.

End Instances.

(** ** Worked inputs *)

Module Examples.

(** A document: sections separated by a blank line, lines ended by CRLF. *)
Definition document (sections : list (list string)) : string :=
  Py.join (Py.CRLF @@ Py.CRLF) (map (Py.join Py.CRLF) sections).

(** Two setup blocks, each with a [Device] section and closed by
    [Profiles]. *)
Definition two_setups : string :=
  document
    [ ["[Setup1]"; "Name;Value"; "A;1"];
      ["[Device]"; "Name;Value"; "D;1"];
      ["[Profiles]"; "Name;Value"; "P;1"];
      ["[Setup2]"; "Name;Value"; "B;2"];
      ["[Device]"; "Name;Value"; "D;2"];
      ["[Profiles]"; "Name;Value"; "P;2"] ]%string.

Definition name_value (n v : string) : DataFrame :=
  {| columns := ["Name"; "Value"]%string; rows := [[Str n; Str v]] |}.

(** A second setup block opened before the first one is closed. *)
Definition unclosed_setup : string :=
  document
    [ ["[Setup1]"; "Name;Value"; "A;1"];
      ["[Setup2]"; "Name;Value"; "B;2"] ]%string.

(** A section with a header line and no data row, between two others. *)
Definition header_only : string :=
  document
    [ ["[Device]"; "Name;Value"; "D;1"];
      ["[Empty]"; "Name;Value"];
      ["[Pumps]"; "Name;Value"; "P;1"] ]%string.

(** An events table: an addition and a removal on reactor 1, an event
    without reactor, and an addition of nothing on reactor 2. *)
Definition events : DataFrame :=
  {| columns := ["Timestamp"; "Reference"; "Description"]%string;
     rows :=
       [ [Str "2021-03-01 10:00:00"; Str "Unit 1";
          Str "Added volume 5.00 mL to vessel"];
         [Str "2021-03-01 11:00:00"; Str "Unit 1";
          Str "Added volume -2.50 mL to vessel"];
         [Str "2021-03-01 12:00:00"; NaN; Str "Inoculation"];
         [Str "2021-03-01 13:00:00"; Str "Unit 2";
          Str "Added volume 0 mL to vessel"] ] |}.

(** The events table after [h_extract_volume_changes]. *)
Definition events_extracted : DataFrame :=
  Eval vm_compute in
    match h_extract_volume_changes Instances.decimal_float events with
    | Ok new_events_df => new_events_df
    | Raise _ => events
    end.

(** An events table none of whose events names a reactor. *)
Definition unattributed : DataFrame :=
  {| columns := ["Timestamp"; "Reference"; "Description"]%string;
     rows :=
       [ [Str "2021-03-01 10:00:00"; NaN; Str "Inoculation"];
         [Str "2021-03-01 12:00:00"; NaN; Str "Sampling"] ] |}.

Definition events_description : list value :=
  [ Str "Added volume 5.00 mL to vessel";
    Str "Added volume -2.50 mL to vessel";
    Str "Inoculation";
    Str "Added volume 0 mL to vessel" ].

(** A reactor table whose third column is first filled in its second row. *)
Definition reactor : DataFrame :=
  {| columns := ["Timestamp"; "Duration []"; "InoculationTime []"]%string;
     rows :=
       [ [Str "2021-03-01 09:00:00"; Str "0"; NaN];
         [Str "2021-03-01 10:00:00"; Str "1"; Str "0"];
         [Str "2021-03-01 11:30:00"; Str "2.5"; Str "1.5"] ] |}.

(** A dict with one reactor section and the events, and what the engine
    makes of it in strict mode. *)
Definition dasdict : Py.dict DataFrame :=
  [ ("TrackData1"%string, reactor); ("Events"%string, events) ].

Definition cdf_dict_strict : list (nat * DataFrame) :=
  Eval vm_compute in
    match convert_dasdict_2_cdf_dict Instances.decimal_float
            Instances.iso_datetime dasdict true with
    | Ok d => d
    | Raise _ => []
    end.

End Examples.

(** ** The lines of a section, as the splitter and the parser see them *)

(** [section_content], the lines after the name. *)
Definition section_body (section : string) : list string :=
  tl (Py.split Py.CRLF (Py.lstrip section)).

(** The lines of the body that the parser reads: the first is the header of
    the table, the others are its data rows. *)
Definition body_lines (section : string) : list string :=
  filter (fun l => negb (Pandas.blank_line l))
         (Pandas.text_lines (Py.join (String Py.LF EmptyString)
                                     (section_body section))).

Definition data_rows (section : string) : list string := tl (body_lines section).

(** A line holds no line break of its own. *)
Definition single_line (l : string) : bool :=
  forallb (fun c => negb (Ascii.eqb c Py.CR || Ascii.eqb c Py.LF)) (Py.chars l).

(** ** The volume columns as the specification words them *)

(** What the specification says of one row of the events table: [d] is its
    [Description], [a] its [Vol_added], [r] its [Vol_removed]. *)
Definition volume_row (astype_float : string -> result spec_float)
  (d a r : value) : Prop :=
  match d with
  | Str s =>
      if Py.startswith "Added volume" s
      then exists x,
             astype_float (Py.slice 13 13 s) = Ok x
             /\ (SFltb SFzero x = true -> a = Float x /\ isnull r = true)
             /\ (SFltb x SFzero = true ->
                 r = Float (SFabs x) /\ isnull a = true)
      else isnull a = true /\ isnull r = true
  | _ => isnull a = true /\ isnull r = true
  end.

(** ** The inoculation time as the specification words it

    The reference instant is the timestamp of the first row whose third
    column is not null, and every row gets its timestamp minus the reference
    instant in fractional hours. *)
Definition hours_of_ns (ns : Z) : spec_float :=
  SFdiv Instances.prec Instances.emax
        (Instances.float_of_Z ns) (Instances.float_of_Z 3600000000000).

Definition spec_inoculation_hours (to_datetime : string -> result Z)
  (cdf : DataFrame) : result (list value) :=
  col2 <-- iloc_col 2 cdf ;;
  col0 <-- iloc_col 0 cdf ;;
  match first_valid_index col2 with
  | None => Raise TypeError
  | Some i =>
      v <-- Py.getitem col0 i ;;
      reference <-- to_datetime_value to_datetime v ;;
      timestamps <-- mapM (to_datetime_value to_datetime) col0 ;;
      Ok (map (fun t => match t, reference with
                        | Some t, Some r => Float (hours_of_ns (t - r))
                        | _, _ => NaN
                        end) timestamps)
  end.

(** ** Per-reactor spellings of a measurement name

    In the text a column of reactor [n] is named [Unit n.] followed by the
    measurement name, in which the reactor number may be written again: before
    the first dot, after a blank in version 4 ([Unit 1.XCO2 1.Out [%]]) and
    directly in version 5 ([Unit 1.XCO21.Out [%]]), or before the blank that
    precedes the unit in brackets. *)

Fixpoint before_first_dot (ins name : string) : string :=
  match name with
  | EmptyString => EmptyString
  | String c rest =>
      if Ascii.eqb c Re.DOT then ins @@ name
      else String c (before_first_dot ins rest)
  end.

Fixpoint before_bracket (ins name : string) : string :=
  match name with
  | EmptyString => EmptyString
  | String c rest =>
      if String.prefix " [" name then ins @@ name
      else String c (before_bracket ins rest)
  end.

Definition unit_column (n : nat) (name : string) : string :=
  "Unit " @@ Py.of_nat n @@ "." @@ name.

Definition v4_style (n : nat) (name : string) : string :=
  unit_column n (before_first_dot (" " @@ Py.of_nat n) name).

Definition v5_style (n : nat) (name : string) : string :=
  unit_column n (before_first_dot (Py.of_nat n) name).

(** Every spelling of [name] for reactor [n]. *)
Definition spellings (n : nat) (name : string) : list string :=
  [ unit_column n name;
    v4_style n name;
    v5_style n name;
    unit_column n (before_bracket (Py.of_nat n) name) ].

(** All spellings of both names of a pair normalize to the version-5 name. *)
Definition pair_normalized (n : nat) (kv : string * string) : bool :=
  forallb (fun raw => String.eqb (standardize_name raw) (snd kv))
          (spellings n (fst kv) ++ spellings n (snd kv)).

(** ** Notions used in the statements and proofs *)

(** The position at which [setcol] writes a column. *)
Definition position (name : string) (l : list string) : nat :=
  match index_of name l with
  | Some i => i
  | None => List.length l
  end.

(** What [vol_change_float] holds at one row. *)
Definition vol_change_at (astype_float : string -> result spec_float)
  (d : value) (x : spec_float) : Prop :=
  match d with
  | Str s =>
      if Py.startswith "Added volume" s
      then astype_float (Py.slice 13 13 s) = Ok x
      else x = S754_nan
  | _ => x = S754_nan
  end.

(** The strict selection of one row. *)
Definition refers_to (reactor_num : string) (v : value) : bool :=
  match v with
  | Str s => Py.contains ("Unit " @@ reactor_num) s
  | _ => false
  end.

(** One boolean series selects no row that the other leaves out. *)
Definition mask_le (m1 m2 : list bool) : Prop :=
  Forall2 (fun a b => a = true -> b = true) m1 m2.

(** ** The whole extraction and the export *)

Section Pipeline.

Variable decode : string -> result string.
Variable astype_float : string -> result spec_float.
Variable to_datetime : string -> result Z.

(** [extract]: the three stages in a row, in strict mode. *)
Definition extract (daszip : ZipFile) : M (list (nat * DataFrame)) :=
  internal_file <- read_daszip daszip "Control.csv" decode ;;
  dasdict <- convert_daszip_2_dasdict internal_file ;;
  lift (convert_dasdict_2_cdf_dict astype_float to_datetime dasdict true).

End Pipeline.

(** What a run leaves behind, in order: warnings, log records, the line
    printed on a wrong format, and the files written.  A csv file is recorded
    with its path and the table handed to [to_csv]. *)
Inductive event : Type :=
| Warned (msg : string)
| Logged (level msg : string)
| Printed (msg : string)
| CsvFile (path : string) (df : DataFrame).

Definition IO (A : Type) : Type := (list event * result A)%type.

Definition io_ret {A} (a : A) : IO A := ([], Ok a).
Definition emit (e : event) : IO unit := ([e], Ok tt).

Definition io_bind {A B} (m : IO A) (f : A -> IO B) : IO B :=
  match m with
  | (t, Ok a) => let '(t', r) := f a in (t ++ t', r)
  | (t, Raise e) => (t, Raise e)
  end.

Notation "x <~ m ;; k" := (io_bind m (fun x => k))
  (at level 61, m at next level, right associativity).
Notation "m ;~ k" := (io_bind m (fun _ => k))
  (at level 61, right associativity).

(** A computation that warns, run where files are written. *)
Definition of_M {A} (m : M A) : IO A := (map Warned (fst m), snd m).

(** The degree sign, code point 176. *)
Definition DEGREE : string := String (ascii_of_nat 176) EmptyString.

(** [export_cdf_dict_2_csv]: one file per entry of the dict. *)
Fixpoint export_cdf_dict_2_csv (cdf_dict : list (nat * DataFrame))
  (export_name : string) : IO unit :=
  match cdf_dict with
  | [] => io_ret tt
  | (k, cdf) :: rest =>
      emit (Logged "DEBUG" ("Working on reactor n" @@ DEGREE @@ " " @@ Py.of_nat k)) ;~
      emit (CsvFile (export_name @@ "-" @@ Py.of_nat k @@ ".csv") cdf) ;~
      export_cdf_dict_2_csv rest export_name
  end.

Module Path.

Definition SLASH : ascii := ascii_of_nat 47.
Definition BACKSLASH : ascii := ascii_of_nat 92.

(** The position of the last character of [l] that satisfies [p], counted
    from 1; 0 when there is none. *)
Fixpoint rfind (p : ascii -> bool) (l : list ascii) : nat :=
  match l with
  | [] => 0
  | c :: l' =>
      match rfind p l' with
      | 0 => if p c then 1 else 0
      | S i => S (S i)
      end
  end.

(** [os.path.splitext(path)[0]] with both separators, as it is on Windows
    (where the codec [ansi] that [read_daszip] asks for exists): the
    extension starts at the last dot that comes after the last separator and
    after a character of the file name that is not a dot. *)
Definition splitext_root (path : string) : string :=
  let l := Py.chars path in
  let sep := rfind (fun c => Ascii.eqb c SLASH || Ascii.eqb c BACKSLASH) l in
  let dot := rfind (fun c => Ascii.eqb c Re.DOT) l in
  if (sep <? dot)
     && existsb (fun c => negb (Ascii.eqb c Re.DOT))
                (firstn (dot - 1 - sep) (skipn sep l))
  then Py.str (firstn (dot - 1) l)
  else path.

End Path.

Section ExportGlue.

Variable decode : string -> result string.
Variable astype_float : string -> result spec_float.
Variable to_datetime : string -> result Z.

(** [export_cdf_dict_2_excel], which goes through the spreadsheet writer of
    the library, is a parameter. *)
Variable export_cdf_dict_2_excel : list (nat * DataFrame) -> string -> IO unit.

(** The body of the loop of [export_all] over the archives; an archive is
    given with the name [glob] found it under. *)
Definition export_one (export_format : string) (daszip : string * ZipFile)
  : IO unit :=
  let das_name := Path.splitext_root (fst daszip) in
  cdf_dict <~ of_M (extract decode astype_float to_datetime (snd daszip)) ;;
  if String.eqb export_format "xlsx" then
    emit (Logged "INFO" ("exporting " @@ das_name @@ " as xlsx")) ;~
    export_cdf_dict_2_excel cdf_dict das_name ;~
    emit (Logged "INFO" (das_name @@ " exported successfully as xlsx"))
  else if String.eqb export_format "csv" then
    emit (Logged "INFO" ("exporting " @@ das_name @@ " as csv")) ;~
    export_cdf_dict_2_csv cdf_dict das_name ;~
    emit (Logged "INFO" (das_name @@ " exported successfully as csv"))
  else io_ret tt.

Fixpoint export_each (export_format : string)
  (daszip_list : list (string * ZipFile)) : IO unit :=
  match daszip_list with
  | [] => io_ret tt
  | daszip :: rest =>
      export_one export_format daszip ;~
      export_each export_format rest
  end.

(** [export_all]; [daszip_list] is what [glob.glob] finds, in its order. *)
Definition export_all (export_format : string)
  (daszip_list : list (string * ZipFile)) : IO unit :=
  if negb (existsb (String.eqb export_format) ["csv"; "xlsx"]%string) then
    emit (Printed ("Error: " @@ String Py.DQUOTE "export_format"
                   @@ String Py.DQUOTE " should be one of: "
                   @@ String Py.DQUOTE "csv" @@ String Py.DQUOTE ", "
                   @@ String Py.DQUOTE "xlsx" @@ String Py.DQUOTE ". It was "
                   @@ String Py.DQUOTE export_format
                   @@ String Py.DQUOTE " instead."))
  else
    emit (Logged "INFO" (Py.of_nat (List.length daszip_list)
                         @@ " dasgip zip files have been found. Proceeding to extraction.")) ;~
    export_each export_format daszip_list.

End ExportGlue.

(** The files among the events of a run. *)
Definition csv_paths (trace : list event) : list string :=
  flat_map (fun e => match e with CsvFile p _ => [p] | _ => [] end) trace.

(** ** Notions used for the further properties *)

(** The name a section announces: its first line, without the brackets and
    quotes around it. *)
Definition raw_name (section : string) : string :=
  Py.strip [Re.LBRACKET; Py.DQUOTE; ascii_of_nat 93]
           (hd EmptyString (Py.split Py.CRLF (Py.lstrip section))).

(** The test that opens a setup block. *)
Definition is_setup (name : string) : bool :=
  String.eqb (Py.take 5 name) "Setup" && negb (String.eqb name "Setups").

Definition has_digit (s : string) : bool := existsb Py.isdigit (Py.chars s).

(** The name under which an iteration stores its table. *)
Definition stored_name (risk : bool) (section : string) : string :=
  if is_setup (raw_name section) && risk
  then Py.drop_last (raw_name section)
  else raw_name section.

(** The flag an iteration leaves. *)
Definition next_risk (risk : bool) (section : string) : bool :=
  if String.eqb (Py.take 8 (stored_name risk section)) "Profiles" then false
  else if is_setup (raw_name section) then true else risk.

(** The columns [h_extract_volume_changes] assigns. *)
Definition new_event_columns : list string :=
  ["Vol_added"; "Liquid_added"; "Vol_removed"; "Feed_pump"; "Feed_balance"]%string.

(** The reactor number read off a section name: its last character, as a
    decimal digit. *)
Definition reactor_number (reactor_name : string) : result nat :=
  reactor_num <-- Py.last_char reactor_name ;;
  int_of_char reactor_num.

(** The csv files among the events of a run, each with its table. *)
Definition csv_files (trace : list event) : list (string * DataFrame) :=
  flat_map (fun e => match e with CsvFile p df => [(p, df)] | _ => [] end) trace.

(** ** Worked runs *)

Module Runs.

(** An archive with one reactor and one event. *)
Definition archive : ZipFile :=
  [ {| member_name := "run/Control.csv";
       member_data :=
         Examples.document
           [ ["[TrackData1]";
              "Timestamp;Unit 1.Duration [];Unit 1.Inoculation Time []";
              "2021-03-01 09:00:00;0;";
              "2021-03-01 10:00:00;1;0"];
             ["[Events]";
              "Timestamp;Reference;Description";
              "2021-03-01 10:00:00;Unit 1;Added volume 5.00 mL to vessel"] ]%string |} ].

(** What the export of that archive as csv leaves. *)
Definition archive_trace : list event :=
  Eval vm_compute in
    fst (export_each (fun b => Ok b) Instances.decimal_float
                     Instances.iso_datetime (fun _ _ => io_ret tt) "csv"
                     [("run1.zip"%string, archive)]).

End Runs.

(** * Properties *)

(** ** Archive Reader *)

Lemma filter_none {A} (p : A -> bool) (l : list A) :
  (forall a, In a l -> p a = false) -> filter p l = [].
Proof.
  induction l as [|a l IH]; intros H; simpl; [reflexivity|].
  rewrite (H a (or_introl eq_refl)). apply IH. intros b Hb. apply H. now right.
Qed.

(** C4. When no member name of the archive contains the pattern,
    [read_daszip] raises (the [IndexError] of [positives[0]], the failure the
    specification calls NotFoundError), without a warning and without
    returning a text. *)
Theorem read_daszip_no_match :
  forall (zf : ZipFile) (pattern : string) (decode : string -> result string),
    (forall m, In m zf -> Py.contains pattern (member_name m) = false) ->
    read_daszip zf pattern decode = ([], Raise IndexError).
Proof.
  intros zf pattern decode H. unfold read_daszip.
  rewrite filter_none.
  - reflexivity.
  - intros name Hin. unfold namelist in Hin. apply in_map_iff in Hin.
    destruct Hin as [m [<- Hm]]. now apply H.
Qed.

Lemma read_daszip_no_match_witness :
  read_daszip [ {| member_name := "Data.csv"; member_data := "x" |};
                {| member_name := "Notes.txt"; member_data := "y" |} ]
              "Control.csv" (fun b => Ok b)
  = ([], Raise IndexError).
Proof.
  apply read_daszip_no_match.
  intros m [<- | [<- | []]]; reflexivity.
Defined.

(** ** Reactor Merge Engine: the missing [Events] section *)

(** C5. On a dict without the key [Events], [convert_dasdict_2_cdf_dict]
    raises (the [KeyError] of [dasdict["Events"]], the failure the
    specification calls MissingSectionError), in either mode. *)
Theorem convert_dasdict_missing_events :
  forall (astype_float : string -> result spec_float)
         (to_datetime : string -> result Z)
         (dasdict : Py.dict DataFrame) (strict : bool),
    Py.get dasdict "Events" = None ->
    convert_dasdict_2_cdf_dict astype_float to_datetime dasdict strict
    = Raise KeyError.
Proof.
  intros af td dasdict strict H. unfold convert_dasdict_2_cdf_dict, Py.subscript.
  rewrite H. reflexivity.
Qed.

Lemma convert_dasdict_missing_events_witness :
  convert_dasdict_2_cdf_dict Instances.decimal_float Instances.iso_datetime
    [ ("TrackData1"%string,
       {| columns := ["Timestamp"%string]; rows := [[Str "2021-03-01 10:00:00"]] |}) ]
    true
  = Raise KeyError.
Proof.
  apply convert_dasdict_missing_events. reflexivity.
Defined.

(** ** Section Splitter: the names under which sections are stored *)

(** C1. The suffix is never appended: [setup_number] is reset to the empty
    string at the top of every iteration, before it is used.  On a document
    with two setup blocks, each holding a [Device] section, the dict has one
    [Device] entry, the table of the second block having replaced that of the
    first, and neither [Device1] nor [Device2]. *)
Theorem setup_suffix_not_appended :
  convert_daszip_2_dasdict Examples.two_setups
  = ([], Ok [ ("Setup1"%string, Examples.name_value "A" "1");
              ("Device"%string, Examples.name_value "D" "2");
              ("Profiles"%string, Examples.name_value "P" "2");
              ("Setup2"%string, Examples.name_value "B" "2") ])
  /\ (forall d, convert_daszip_2_dasdict Examples.two_setups = ([], Ok d) ->
                Py.get d "Device1" = None /\ Py.get d "Device2" = None).
Proof.
  assert (E : convert_daszip_2_dasdict Examples.two_setups
              = ([], Ok [ ("Setup1"%string, Examples.name_value "A" "1");
                          ("Device"%string, Examples.name_value "D" "2");
                          ("Profiles"%string, Examples.name_value "P" "2");
                          ("Setup2"%string, Examples.name_value "B" "2") ]))
    by (vm_compute; reflexivity).
  split; [exact E|].
  intros d Hd. rewrite E in Hd. injection Hd as <-. split; reflexivity.
Qed.

(** A setup section met while the flag is set is stored without its last
    character, and the warning is given. *)
Example unclosed_setup_warns :
  warnings (convert_daszip_2_dasdict Examples.unclosed_setup) = [setup_warning]
  /\ outcome (convert_daszip_2_dasdict Examples.unclosed_setup)
     = Ok [ ("Setup1"%string, Examples.name_value "A" "1");
            ("Setup"%string, Examples.name_value "B" "2") ].
Proof. split; vm_compute; reflexivity. Qed.

(** ** Section Splitter: sections without data *)

Lemma last_char_of_setup (s : string) :
  String.eqb (Py.take 5 s) "Setup" = true -> exists c, Py.last_char s = Ok c.
Proof.
  destruct s as [|a s]; [discriminate|]. intros _.
  unfold Py.last_char, Py.chars. simpl.
  destruct (rev (list_ascii_of_string s) ++ [a]) as [|c l] eqn:E.
  - now apply app_eq_nil in E.
  - now exists (String c EmptyString).
Qed.

Lemma tokenize_blank (lines : list string) :
  filter (fun l => negb (Pandas.blank_line l)) lines = [] ->
  Pandas.tokenize lines = Ok [].
Proof.
  unfold Pandas.tokenize. induction lines as [|l ls IH]; intros H; [reflexivity|].
  simpl in H. destruct (Pandas.blank_line l) eqn:E; simpl in H; [|discriminate].
  cbn [Pandas.tokenize_go Csv.open_quote negb andb]. rewrite E. now apply IH.
Qed.

Lemma read_csv_empty (text : string) :
  filter (fun l => negb (Pandas.blank_line l)) (Pandas.text_lines text) = [] ->
  Pandas.read_csv text = Raise EmptyDataError.
Proof. intros H. unfold Pandas.read_csv. now rewrite (tokenize_blank _ H). Qed.

(** A section of the document [Examples.header_only] has a header line and no
    data row, and the dict has an entry for it, a table without rows. *)
Lemma header_only_section_stored :
  data_rows (Py.join Py.CRLF ["[Empty]"; "Name;Value"]%string) = []
  /\ convert_daszip_2_dasdict Examples.header_only
     = ([], Ok [ ("Device"%string, Examples.name_value "D" "1");
                 ("Empty"%string,
                  {| columns := ["Name"; "Value"]%string; rows := [] |});
                 ("Pumps"%string, Examples.name_value "P" "1") ]).
Proof. split; vm_compute; reflexivity. Qed.

(** C9, as the code has it.  A section whose body holds no line for the
    parser to read (no line at all, or blank lines only) is stepped over:
    the iteration raises nothing and leaves the dict as it was, and the loop
    goes on with the remaining sections. *)
Theorem empty_body_section_skipped :
  forall (st : splitter_state) (section : string) (rest : list string),
    body_lines section = [] ->
    exists w st',
      process_section st section = (w, Ok st')
      /\ sections_dict st' = sections_dict st
      /\ convert_sections st (section :: rest)
         = bind (w, Ok st') (fun st' => convert_sections st' rest).
Proof.
  intros st section rest H.
  apply read_csv_empty in H. fold (section_body section) in H.
  assert (P : exists w st', process_section st section = (w, Ok st')
                            /\ sections_dict st' = sections_dict st).
  { unfold process_section.
    change (tl (Py.split Py.CRLF (Py.lstrip section))) with (section_body section).
    rewrite H.
    set (name := if overwriting_risk st then _ else _).
    destruct (String.eqb (Py.take 5 name) "Setup" && negb (String.eqb name "Setups"))
      eqn:Hsetup.
    - apply andb_prop in Hsetup as [Hs _].
      destruct (last_char_of_setup name Hs) as [c Hc]. rewrite Hc.
      destruct (overwriting_risk st); simpl; eauto.
    - simpl; eauto. }
  destruct P as (w & st' & Hp & Hd).
  exists w, st'. repeat split; trivial.
  simpl. now rewrite Hp.
Qed.

Lemma empty_body_section_skipped_witness :
  exists w st',
    process_section {| overwriting_risk := false;
                       sections_dict := [("Device"%string, Examples.name_value "D" "1")] |}
                    "[Nothing]" = (w, Ok st')
    /\ sections_dict st' = [("Device"%string, Examples.name_value "D" "1")]
    /\ convert_sections
         {| overwriting_risk := false;
            sections_dict := [("Device"%string, Examples.name_value "D" "1")] |}
         ["[Nothing]"%string; Py.join Py.CRLF ["[Pumps]"; "Name;Value"; "P;1"]%string]
       = bind (w, Ok st')
              (fun st' => convert_sections st'
                 [Py.join Py.CRLF ["[Pumps]"; "Name;Value"; "P;1"]%string]).
Proof.
  apply (empty_body_section_skipped
           {| overwriting_risk := false;
              sections_dict := [("Device"%string, Examples.name_value "D" "1")] |}
           "[Nothing]"
           [Py.join Py.CRLF ["[Pumps]"; "Name;Value"; "P;1"]%string]).
  vm_compute. reflexivity.
Defined.

(** ** Irregular-CSV Parser *)

Lemma str_chars (s : string) : Py.str (Py.chars s) = s.
Proof. apply string_of_list_ascii_of_string. Qed.

Lemma text_lines_go_last (l : string) :
  forall cur, single_line l = true ->
    Pandas.text_lines_go cur l = [Py.str (rev cur ++ Py.chars l)].
Proof.
  induction l as [|c l IH]; intros cur H; simpl.
  - unfold Py.chars. simpl. now rewrite app_nil_r.
  - unfold single_line in H. simpl in H. apply andb_prop in H as [Hc Hl].
    apply negb_true_iff, orb_false_iff in Hc as [Hcr Hlf].
    rewrite Hcr, Hlf. rewrite (IH (c :: cur) Hl). simpl.
    unfold Py.chars. simpl. now rewrite <- app_assoc.
Qed.

Lemma text_lines_go_line (l rest : string) :
  forall cur, single_line l = true ->
    Pandas.text_lines_go cur (l @@ String Py.LF rest)
    = Py.str (rev cur ++ Py.chars l) :: Pandas.text_lines_go [] rest.
Proof.
  induction l as [|c l IH]; intros cur H.
  - simpl. unfold Py.chars. simpl. now rewrite app_nil_r.
  - unfold single_line in H. simpl in H. apply andb_prop in H as [Hc Hl].
    apply negb_true_iff, orb_false_iff in Hc as [Hcr Hlf].
    change ((String c l) @@ String Py.LF rest)
      with (String c (l @@ String Py.LF rest)).
    cbn [Pandas.text_lines_go]. rewrite Hcr, Hlf.
    rewrite (IH (c :: cur) Hl). simpl.
    unfold Py.chars. simpl. now rewrite <- app_assoc.
Qed.

(** Lines without a line break of their own come back from the joined text. *)
Lemma text_lines_join (lines : list string) :
  lines <> [] ->
  Forall (fun l => single_line l = true) lines ->
  Pandas.text_lines (Py.join (String Py.LF EmptyString) lines) = lines.
Proof.
  induction lines as [|l ls IH]; intros Hne H; [congruence|].
  inversion H as [|? ? Hl Hls]; subst.
  destruct ls as [|l' ls].
  - simpl. unfold Pandas.text_lines. rewrite text_lines_go_last by assumption.
    simpl. now rewrite str_chars.
  - unfold Pandas.text_lines, Py.join.
    change (String.concat (String Py.LF EmptyString) (l :: l' :: ls))
      with (l @@ String Py.LF (String.concat (String Py.LF EmptyString) (l' :: ls))).
    rewrite text_lines_go_line by assumption. simpl. rewrite str_chars.
    f_equal. apply IH; [discriminate|assumption].
Qed.

Lemma unknown_names_length (k : nat) : List.length (unknown_names k) = k.
Proof. unfold unknown_names. now rewrite length_map, length_seq. Qed.

Lemma unknown_names_nth (k i : nat) :
  i < k -> nth_error (unknown_names k) i = Some ("unknown" @@ Py.of_nat (i + 1)).
Proof.
  intros H. unfold unknown_names. rewrite nth_error_map.
  rewrite (nth_error_nth' (seq 0 k) 0) by (now rewrite length_seq).
  rewrite seq_nth by assumption. reflexivity.
Qed.

Lemma pad_row_length (width : nat) (r : list value) :
  List.length r <= width -> List.length (Pandas.pad_row width r) = width.
Proof.
  intros H. unfold Pandas.pad_row. rewrite length_app, repeat_length. lia.
Qed.

Lemma length_le_list_max (l : list nat) (n : nat) : In n l -> n <= list_max l.
Proof.
  intros H. assert (F : Forall (fun k => k <= list_max l) l)
    by (apply list_max_le; lia).
  rewrite Forall_forall in F. now apply F.
Qed.

Lemma existsb_none {A} (p : A -> bool) (l : list A) :
  (forall a, In a l -> p a = false) -> existsb p l = false.
Proof.
  induction l as [|a l IH]; intros H; simpl; [reflexivity|].
  rewrite (H a (or_introl eq_refl)). apply IH. intros b Hb. apply H. now right.
Qed.

Lemma py_max_nonempty (l : list nat) : l <> [] -> Py.max l = Ok (list_max l).
Proof. destruct l; [congruence|reflexivity]. Qed.

Lemma tokenize_closed (lines : list string) :
  Forall (fun l => Csv.closed l = true) lines ->
  Pandas.tokenize lines
  = Ok (map Csv.fields (filter (fun l => negb (Pandas.blank_line l)) lines)).
Proof.
  unfold Pandas.tokenize. induction 1 as [|l ls Hl _ IH]; [reflexivity|].
  cbn [Pandas.tokenize_go Csv.open_quote negb andb filter].
  destruct (Pandas.blank_line l); cbn [negb]; [exact IH|].
  unfold Csv.closed in Hl. apply negb_true_iff in Hl. rewrite Hl, IH.
  reflexivity.
Qed.

Lemma reader_closed (lines : list string) :
  Forall (fun l => Csv.closed l = true) lines ->
  Csv.reader lines = map Csv.fields lines.
Proof.
  unfold Csv.reader. induction 1 as [|l ls Hl _ IH]; [reflexivity|].
  cbn [Csv.reader_go map].
  unfold Csv.closed in Hl. apply negb_true_iff in Hl. rewrite Hl, IH.
  reflexivity.
Qed.

Lemma skip_record_closed (l : string) (rest : list string) :
  Csv.closed l = true -> Pandas.skip_record Csv.StartRecord (l :: rest) = rest.
Proof.
  intros Hl. unfold Csv.closed in Hl. apply negb_true_iff in Hl.
  cbn [Pandas.skip_record]. now rewrite Hl.
Qed.

Lemma distinct_NoDup (names : list string) :
  NoDup names -> Pandas.distinct names = true.
Proof.
  induction 1 as [|n l Hn _ IH]; [reflexivity|].
  cbn [Pandas.distinct]. rewrite IH, andb_true_r. apply negb_true_iff.
  apply existsb_none. intros a Ha. apply String.eqb_neq. congruence.
Qed.


(** A quoted field left open runs on to the end of the text, and pandas
    refuses such a text: the repair raises as [read_csv] did.  When the open
    field is in the header, the reader has no data row to give and [max]
    raises. *)
Example open_quote_refused :
  Pandas.read_csv (Py.join (String Py.LF EmptyString)
                           ["a;b"; String Py.DQUOTE "x;1"; "y;2;3"]%string)
  = Raise ParserError
  /\ Csv.reader ["a;b"; String Py.DQUOTE "x;1"; "y;2;3"]%string
     = [["a"; "b"]; ["x;1y;2;3"]]%string
  /\ h_parse_irregular_csv ["a;b"; String Py.DQUOTE "x;1"; "y;2;3"]%string
     = Raise ParserError
  /\ h_parse_irregular_csv [String Py.DQUOTE "abc"] = Raise ValueError.
Proof. repeat split; vm_compute; reflexivity. Qed.



(** ** Columns of a table *)

Lemma position_cons (name c : string) (l : list string) :
  String.eqb name c = false -> position name (c :: l) = S (position name l).
Proof.
  intros H. unfold position. simpl. rewrite H.
  now destruct (index_of name l).
Qed.

Lemma index_of_set_nth_same (name : string) (l : list string) :
  index_of name (set_nth (position name l) name EmptyString l)
  = Some (position name l).
Proof.
  induction l as [|c l IH].
  - simpl. now rewrite String.eqb_refl.
  - destruct (String.eqb name c) eqn:E.
    + unfold position. simpl. rewrite E. simpl. now rewrite String.eqb_refl.
    + rewrite (position_cons _ _ _ E). simpl. rewrite E, IH. reflexivity.
Qed.

Lemma index_of_set_nth_other (name name' : string) (l : list string) :
  String.eqb name name' = false ->
  index_of name (set_nth (position name' l) name' EmptyString l)
  = index_of name l.
Proof.
  intros Hne. induction l as [|c l IH].
  - simpl. now rewrite Hne.
  - destruct (String.eqb name' c) eqn:E.
    + unfold position. simpl. rewrite E. simpl.
      apply String.eqb_eq in E. subst c. now rewrite Hne.
    + rewrite (position_cons _ _ _ E). simpl. now rewrite IH.
Qed.

Lemma position_other (name name' : string) (l : list string) (i : nat) :
  String.eqb name name' = false ->
  index_of name l = Some i -> position name' l <> i.
Proof.
  intros Hne. revert i. induction l as [|c l IH]; intros i H; [discriminate|].
  simpl in H. destruct (String.eqb name c) eqn:E.
  - injection H as <-. apply String.eqb_eq in E. subst c.
    rewrite position_cons; [discriminate|].
    rewrite String.eqb_sym. exact Hne.
  - destruct (index_of name l) as [j|] eqn:Ej; [|discriminate].
    injection H as <-. destruct (String.eqb name' c) eqn:E'.
    + unfold position. simpl. rewrite E'. discriminate.
    + rewrite (position_cons _ _ _ E'). specialize (IH j eq_refl). lia.
Qed.

Lemma cell_set_nth_same (i : nat) (v : value) (row : list value) :
  cell i (set_nth i v NaN row) = v.
Proof.
  unfold cell. revert row. induction i as [|i IH]; intros [|x row]; simpl; auto.
Qed.

Lemma cell_set_nth_other (i j : nat) (v : value) (row : list value) :
  i <> j -> cell j (set_nth i v NaN row) = cell j row.
Proof.
  unfold cell. revert j row.
  induction i as [|i IH]; intros [|j] [|x row] H; simpl; try congruence; auto.
  - now destruct j.
  - rewrite IH by lia. now destruct j.
Qed.

Lemma map_combine_fst {A B C} (f : A -> C) (l : list A) (l' : list B) :
  List.length l = List.length l' ->
  map (fun p => f (fst p)) (combine l l') = map f l.
Proof.
  revert l'. induction l as [|a l IH]; intros [|b l'] H; simpl in *;
    try discriminate; [reflexivity|].
  f_equal. apply IH. lia.
Qed.

Lemma map_combine_snd {A B C} (f : B -> C) (l : list A) (l' : list B) :
  List.length l = List.length l' ->
  map (fun p => f (snd p)) (combine l l') = map f l'.
Proof.
  revert l'. induction l as [|a l IH]; intros [|b l'] H; simpl in *;
    try discriminate; [reflexivity|].
  f_equal. apply IH. lia.
Qed.

Lemma setcol_rows_length (name : string) (vals : list value) (df : DataFrame) :
  List.length vals = List.length (rows df) ->
  List.length (rows (setcol name vals df)) = List.length (rows df).
Proof.
  intros H. unfold setcol. simpl. rewrite length_map, length_combine. lia.
Qed.

(** A column just assigned reads back as assigned. *)
Lemma getcol_setcol_same (name : string) (vals : list value) (df : DataFrame) :
  List.length vals = List.length (rows df) ->
  getcol name (setcol name vals df) = Ok vals.
Proof.
  intros H. unfold getcol, setcol, column_index. cbn [columns rows].
  fold (position name (columns df)). rewrite index_of_set_nth_same.
  f_equal. rewrite map_map.
  rewrite (map_ext _ (fun rv => snd rv))
    by (intros [r v]; apply cell_set_nth_same).
  rewrite (map_combine_snd (fun v => v)) by lia. apply map_id.
Qed.

(** Assigning a column leaves the others as they were. *)
Lemma getcol_setcol_other (name name' : string) (vals : list value)
  (df : DataFrame) :
  String.eqb name name' = false ->
  List.length vals = List.length (rows df) ->
  getcol name (setcol name' vals df) = getcol name df.
Proof.
  intros Hne H. unfold getcol, setcol, column_index. cbn [columns rows].
  fold (position name' (columns df)).
  rewrite (index_of_set_nth_other _ _ _ Hne).
  destruct (index_of name (columns df)) as [i|] eqn:Ei; [|reflexivity].
  f_equal. rewrite map_map.
  rewrite (map_ext _ (fun rv => cell i (fst rv))).
  - now apply map_combine_fst.
  - intros [r v]. apply cell_set_nth_other.
    now apply (position_other name name' _ i Hne).
Qed.

(** ** Event Extractor *)

Lemma reindex_length (mask : list bool) :
  forall vals, List.length (reindex mask vals) = List.length mask.
Proof.
  induction mask as [|[|] mask IH]; intros vals; simpl; auto.
  destruct vals; simpl; auto.
Qed.

Lemma vol_change_float_rows (af : string -> result spec_float)
  (description : list value) :
  forall vs, vol_change_float af description = Ok vs ->
             Forall2 (vol_change_at af) description vs.
Proof.
  unfold vol_change_float.
  induction description as [|d ds IH]; intros vs H.
  - simpl in H. injection H as <-. constructor.
  - cbn [str_startswith_mask map] in *.
    destruct (match d with Str s => Py.startswith "Added volume" s | _ => false end)
      eqn:Eb.
    + cbn [boolean_index mapM] in H.
      destruct d as [s| | | |]; try discriminate.
      cbn [str_slice] in H.
      destruct (af (Py.slice 13 13 s)) as [x|] eqn:Ex; [|discriminate].
      cbn [result_bind] in H.
      destruct (mapM _ _) as [xs|] eqn:Exs; [|discriminate].
      cbn [result_bind] in H. injection H as <-. cbn [reindex].
      constructor.
      * unfold vol_change_at. now rewrite Eb.
      * apply IH. reflexivity.
    + cbn [boolean_index] in H.
      destruct (mapM _ _) as [xs|] eqn:Exs; [|discriminate].
      cbn [result_bind] in H. injection H as <-. cbn [reindex].
      constructor.
      * unfold vol_change_at. destruct d; trivial. now rewrite Eb.
      * apply IH. reflexivity.
Qed.

Lemma vol_change_float_defined (af : string -> result spec_float)
  (description : list value) :
  (forall s, In (Str s) description ->
             Py.startswith "Added volume" s = true ->
             exists x, af (Py.slice 13 13 s) = Ok x) ->
  exists vs, vol_change_float af description = Ok vs.
Proof.
  unfold vol_change_float.
  induction description as [|d ds IH]; intros H.
  - eexists. reflexivity.
  - destruct IH as [vs Hvs]; [intros s Hs; apply H; now right|].
    destruct (mapM _ (boolean_index _ ds)) as [xs|] eqn:Exs; [|discriminate].
    cbn [str_startswith_mask map].
    destruct (match d with Str s => Py.startswith "Added volume" s | _ => false end)
      eqn:Eb.
    + destruct d as [s| | | |]; try discriminate.
      destruct (H s (or_introl eq_refl) Eb) as [x Hx].
      cbn [boolean_index mapM str_slice]. rewrite Hx. cbn [result_bind].
      unfold str_startswith_mask in Exs. rewrite Exs. eexists. reflexivity.
    + cbn [boolean_index]. unfold str_startswith_mask in Exs. rewrite Exs.
      eexists. reflexivity.
Qed.

Lemma Forall2_nth_error_l {A B} (R : A -> B -> Prop) (l : list A) (l' : list B) :
  Forall2 R l l' ->
  forall i a, nth_error l i = Some a ->
              exists b, nth_error l' i = Some b /\ R a b.
Proof.
  induction 1 as [|x y l l' Hxy _ IH]; intros [|i] a Hi; simpl in *;
    try discriminate.
  - injection Hi as <-. eauto.
  - eauto.
Qed.

Lemma str_accessor_holds (series : list value) :
  (exists s, In (Str s) series) -> str_accessor series = Ok tt.
Proof.
  intros [s Hs]. unfold str_accessor.
  assert (E : existsb holds_str series = true)
    by (apply existsb_exists; now exists (Str s)).
  now rewrite E.
Qed.

(** What a call that returns went through. *)
Lemma h_extract_volume_changes_inv (af : string -> result spec_float)
  (events_df new_events_df : DataFrame) :
  h_extract_volume_changes af events_df = Ok new_events_df ->
  exists description vs,
    getcol "Description" events_df = Ok description
    /\ str_accessor description = Ok tt
    /\ vol_change_float af description = Ok vs.
Proof.
  unfold h_extract_volume_changes. intros H.
  destruct (getcol "Description" events_df) as [d|] eqn:Ed; [|discriminate].
  cbn [result_bind] in H.
  destruct (str_accessor d) as [[]|] eqn:Es; [|discriminate].
  cbn [result_bind] in H.
  destruct (vol_change_float af d) as [vs|] eqn:Ev; [|discriminate].
  eauto.
Qed.

(** The two volume columns of the table [h_extract_volume_changes] returns. *)
Lemma h_extract_volume_changes_columns (af : string -> result spec_float)
  (events_df : DataFrame) (description : list value) (vs : list spec_float) :
  getcol "Description" events_df = Ok description ->
  str_accessor description = Ok tt ->
  vol_change_float af description = Ok vs ->
  exists new_events_df,
    h_extract_volume_changes af events_df = Ok new_events_df
    /\ getcol "Vol_added" new_events_df
       = Ok (map (fun x => Float (where_ (fun x => SFleb SFzero x) x)) vs)
    /\ getcol "Vol_removed" new_events_df
       = Ok (map (fun x => Float (SFabs (where_ (fun x => SFltb x SFzero) x))) vs)
    /\ List.length (rows new_events_df) = List.length (rows events_df)
    /\ List.length vs = List.length (rows events_df).
Proof.
  intros Hd Hs Hvs.
  assert (Hlen : List.length vs = List.length (rows events_df)).
  { apply vol_change_float_rows in Hvs. apply Forall2_length in Hvs.
    unfold getcol in Hd. destruct (column_index _ _); [|discriminate].
    injection Hd as <-. rewrite length_map in Hvs. lia. }
  unfold h_extract_volume_changes. rewrite Hd. cbn [result_bind].
  rewrite Hs. cbn [result_bind].
  rewrite Hvs. cbn [result_bind].
  eexists. split; [reflexivity|].
  split; [|split; [|split; [|exact Hlen]]].
  - repeat (rewrite getcol_setcol_other;
            [| reflexivity
             | repeat rewrite setcol_rows_length; rewrite ?length_map; trivial]).
    apply getcol_setcol_same. now rewrite length_map.
  - repeat (rewrite getcol_setcol_other;
            [| reflexivity
             | repeat rewrite setcol_rows_length; rewrite ?length_map; trivial]).
    apply getcol_setcol_same.
    repeat rewrite setcol_rows_length; rewrite ?length_map; trivial.
  - repeat rewrite setcol_rows_length; rewrite ?length_map; trivial.
Qed.

Lemma SFltb_zero_pos (x : spec_float) :
  SFltb SFzero x = true -> SFleb SFzero x = true /\ SFltb x SFzero = false.
Proof. destruct x as [[|]|[|]| |[|] m e]; cbn; intros H; try discriminate; auto. Qed.

Lemma SFltb_zero_neg (x : spec_float) :
  SFltb x SFzero = true -> SFleb SFzero x = false.
Proof. destruct x as [[|]|[|]| |[|] m e]; cbn; intros H; try discriminate; auto. Qed.

Lemma SF_sign_exclusive (x : spec_float) :
  SFleb SFzero x = true -> SFltb x SFzero = false.
Proof. destruct x as [[|]|[|]| |[|] m e]; cbn; intros H; try discriminate; auto. Qed.

(** The offsets on a message of the form given in the specification: nine
    characters follow the number, so nothing is left between the first 13 and
    the last 13, while a message with thirteen characters after the number
    leaves the number. *)
Example slice_of_messages :
  Py.slice 13 13 "Added volume 5.00 mL total" = EmptyString
  /\ Py.slice 13 13 "Added volume 5.00 mL to vessel" = "5.00"%string.
Proof. split; reflexivity. Qed.




(** C10. Whenever [h_extract_volume_changes] returns a table, the table has
    one row per row of the events table, each with a [Vol_added] and a
    [Vol_removed]; in every row at most one of the two is not null; and in a
    row whose [Description] starts with [Added volume] and gives a zero,
    [Vol_added] is that zero and [Vol_removed] is null. *)
Theorem volume_columns_exclusive :
  forall (astype_float : string -> result spec_float)
         (events_df new_events_df : DataFrame),
    h_extract_volume_changes astype_float events_df = Ok new_events_df ->
    exists description vol_added vol_removed,
      getcol "Description" events_df = Ok description
      /\ getcol "Vol_added" new_events_df = Ok vol_added
      /\ getcol "Vol_removed" new_events_df = Ok vol_removed
      /\ List.length (rows new_events_df) = List.length (rows events_df)
      /\ List.length vol_added = List.length (rows events_df)
      /\ List.length vol_removed = List.length (rows events_df)
      /\ (forall i a r,
            nth_error vol_added i = Some a ->
            nth_error vol_removed i = Some r ->
            isnull a = true \/ isnull r = true)
      /\ (forall i s sign,
            nth_error description i = Some (Str s) ->
            Py.startswith "Added volume" s = true ->
            astype_float (Py.slice 13 13 s) = Ok (S754_zero sign) ->
            nth_error vol_added i = Some (Float (S754_zero sign))
            /\ nth_error vol_removed i = Some NaN).
Proof.
  intros af events_df new_events_df Hcall.
  destruct (h_extract_volume_changes_inv _ _ _ Hcall)
    as (description & vs & Hd & Hs & Hvs).
  destruct (h_extract_volume_changes_columns af events_df description vs Hd Hs Hvs)
    as (new & Hnew & Ha & Hr & Hrows & Hlen).
  rewrite Hcall in Hnew. injection Hnew as <-.
  exists description. eexists. eexists.
  split; [exact Hd|]. split; [exact Ha|]. split; [exact Hr|].
  split; [exact Hrows|].
  split; [now rewrite length_map|]. split; [now rewrite length_map|].
  split.
  - intros i a r Hia Hir.
    rewrite nth_error_map in Hia, Hir.
    destruct (nth_error vs i) as [x|] eqn:Hx; [|discriminate].
    injection Hia as <-. injection Hir as <-.
    unfold where_. destruct (SFleb SFzero x) eqn:Hle.
    + right. now rewrite (SF_sign_exclusive x Hle).
    + now left.
  - intros i s sign Hi Hstart Hzero.
    destruct (Forall2_nth_error_l _ _ _
                (vol_change_float_rows af description vs Hvs) i _ Hi)
      as (x & Hx & Hdx).
    unfold vol_change_at in Hdx. rewrite Hstart, Hzero in Hdx.
    injection Hdx as <-.
    rewrite !nth_error_map, Hx. destruct sign; split; reflexivity.
Qed.

Lemma volume_columns_exclusive_witness :
  exists description vol_added vol_removed,
    getcol "Description" Examples.events = Ok description
    /\ getcol "Vol_added" Examples.events_extracted = Ok vol_added
    /\ getcol "Vol_removed" Examples.events_extracted = Ok vol_removed
    /\ List.length (rows Examples.events_extracted)
       = List.length (rows Examples.events)
    /\ List.length vol_added = List.length (rows Examples.events)
    /\ List.length vol_removed = List.length (rows Examples.events)
    /\ (forall i a r,
          nth_error vol_added i = Some a ->
          nth_error vol_removed i = Some r ->
          isnull a = true \/ isnull r = true)
    /\ (forall i s sign,
          nth_error description i = Some (Str s) ->
          Py.startswith "Added volume" s = true ->
          Instances.decimal_float (Py.slice 13 13 s) = Ok (S754_zero sign) ->
          nth_error vol_added i = Some (Float (S754_zero sign))
          /\ nth_error vol_removed i = Some NaN).
Proof.
  apply (volume_columns_exclusive Instances.decimal_float Examples.events
           Examples.events_extracted).
  vm_compute. reflexivity.
Defined.

(** ** Inoculation time *)

Lemma first_valid_index_spec (series : list value) :
  forall idx, first_valid_index series = Some idx ->
    (exists v, nth_error series idx = Some v /\ isnull v = false)
    /\ (forall j v, j < idx -> nth_error series j = Some v -> isnull v = true).
Proof.
  induction series as [|x series IH]; intros idx H; [discriminate|].
  simpl in H. destruct (isnull x) eqn:Ex.
  - destruct (first_valid_index series) as [k|]; [|discriminate].
    injection H as <-. destruct (IH k eq_refl) as [Hv Hbefore]. split.
    + exact Hv.
    + intros [|j] v Hj Hn; simpl in Hn.
      * now injection Hn as <-.
      * apply (Hbefore j); [lia|assumption].
  - injection H as <-. split.
    + exists x. now split.
    + intros j v Hj. lia.
Qed.

Lemma mapM_nth_error {A B} (f : A -> result B) (l : list A) :
  forall ys, mapM f l = Ok ys ->
    forall i x, nth_error l i = Some x ->
                exists y, f x = Ok y /\ nth_error ys i = Some y.
Proof.
  induction l as [|a l IH]; intros ys H i x Hi.
  - now destruct i.
  - simpl in H. destruct (f a) as [b|] eqn:Eb; [|discriminate].
    cbn [result_bind] in H.
    destruct (mapM f l) as [bs|]; [|discriminate].
    cbn [result_bind] in H. injection H as <-.
    destruct i as [|i]; simpl in Hi.
    + injection Hi as <-. now exists b.
    + apply (IH bs eq_refl i x Hi).
Qed.

Lemma iloc_col_defined (i : nat) (df : DataFrame) :
  i < List.length (columns df) -> iloc_col i df = Ok (map (cell i) (rows df)).
Proof.
  intros H. unfold iloc_col. apply Nat.ltb_lt in H. now rewrite H.
Qed.

Lemma sub_timestamp_fits (inoct : option Z) (timestamp : list (option Z)) :
  (forall t r, In (Some t) timestamp -> inoct = Some r -> int64 (t - r) = true) ->
  sub_timestamp inoct timestamp = Ok (map (timedelta inoct) timestamp).
Proof.
  intros H. unfold sub_timestamp.
  assert (E : forallb (fits inoct) timestamp = true).
  { apply forallb_forall. intros [t|] Ht; [|reflexivity].
    destruct inoct as [r|]; [|reflexivity]. now apply (H t r). }
  now rewrite E.
Qed.




Lemma mapM_length {A B} (f : A -> result B) (l : list A) :
  forall ys, mapM f l = Ok ys -> List.length ys = List.length l.
Proof.
  induction l as [|a l IH]; intros ys H; simpl in H.
  - now injection H as <-.
  - destruct (f a); [|discriminate]. cbn [result_bind] in H.
    destruct (mapM f l) as [bs|]; [|discriminate].
    cbn [result_bind] in H. injection H as <-. simpl. f_equal. now apply IH.
Qed.

Lemma inoctime_length (td : string -> result Z) (cdf : DataFrame)
  (itime : option value) (deltas : list value) :
  inoctime td cdf itime = Ok deltas ->
  List.length deltas = List.length (rows cdf).
Proof.
  unfold inoctime. intros H.
  destruct (match itime with Some v => Ok v | None => _ end) as [v|];
    [|discriminate].
  cbn [result_bind] in H.
  destruct (to_datetime_value td v) as [inoct|]; [|discriminate].
  cbn [result_bind] in H.
  destruct (iloc_col 0 cdf) as [col0|] eqn:E0; [|discriminate].
  cbn [result_bind] in H.
  destruct (mapM _ col0) as [times|] eqn:Et; [|discriminate].
  cbn [result_bind] in H. unfold sub_timestamp in H.
  destruct (forallb _ times); [|discriminate]. injection H as <-.
  rewrite length_map, (mapM_length _ _ _ Et).
  unfold iloc_col in E0. destruct (_ <? _); [|discriminate].
  injection E0 as <-. apply length_map.
Qed.

(** ** Strict and lenient selection of events *)

Lemma fltr_strict_map (reactor_num : string) (reference : list value) :
  fltr_reactor_events true reactor_num reference
  = map (refers_to reactor_num) reference.
Proof. reflexivity. Qed.

Lemma fltr_lenient_map (reactor_num : string) (reference : list value) :
  fltr_reactor_events false reactor_num reference
  = map (fun v => refers_to reactor_num v || isnull v) reference.
Proof.
  unfold fltr_reactor_events, str_contains_mask. cbn [negb].
  fold (refers_to reactor_num).
  induction reference as [|v l IH]; simpl; [reflexivity|]. now rewrite IH.
Qed.

Lemma refers_to_not_null (reactor_num : string) (v : value) :
  isnull v = true -> refers_to reactor_num v = false.
Proof. destruct v; simpl; congruence. Qed.

Lemma strict_mask_le_lenient (reactor_num : string) (reference : list value) :
  mask_le (fltr_reactor_events true reactor_num reference)
          (fltr_reactor_events false reactor_num reference).
Proof.
  rewrite fltr_strict_map, fltr_lenient_map. unfold mask_le.
  induction reference as [|v l IH]; simpl; constructor; trivial.
  intros ->. reflexivity.
Qed.

Lemma boolean_index_filter_le {A} (p : A -> bool) (m1 m2 : list bool) :
  mask_le m1 m2 ->
  forall l, List.length (filter p (boolean_index m1 l))
            <= List.length (filter p (boolean_index m2 l)).
Proof.
  induction 1 as [|a b m1 m2 Hab _ IH]; intros l; [simpl; lia|].
  destruct l as [|x l]; [simpl; lia|].
  specialize (IH l). cbn [boolean_index].
  destruct a.
  - rewrite (Hab eq_refl). simpl. destruct (p x); simpl; lia.
  - destruct b; simpl; [destruct (p x); simpl; lia | lia].
Qed.

Lemma insert_length (k : nat) (x : list value) (l : list (list value)) :
  List.length (Merge.insert k x l) = S (List.length l).
Proof.
  induction l as [|y l IH]; simpl; [reflexivity|].
  destruct (Merge.key_leb _ _); simpl; auto.
Qed.

Lemma sort_length (k : nat) (l : list (list value)) :
  List.length (Merge.sort k l) = List.length l.
Proof.
  induction l as [|x l IH]; simpl; [reflexivity|].
  now rewrite insert_length, IH.
Qed.

Lemma left_rows_length (nl nr kl kr : nat) (right : list (list value))
  (l : list value) :
  List.length (Merge.left_rows nl nr kl kr right l)
  = Nat.max 1 (List.length (Merge.matches kl kr l right)).
Proof.
  unfold Merge.left_rows. destruct (Merge.matches kl kr l right) as [|m ms].
  - reflexivity.
  - rewrite length_map. simpl. reflexivity.
Qed.

Lemma flat_map_length_le {A B} (f g : A -> list B) (l : list A) :
  (forall a, List.length (f a) <= List.length (g a)) ->
  List.length (flat_map f l) <= List.length (flat_map g l).
Proof.
  intros H. induction l as [|a l IH]; simpl; [lia|].
  rewrite !length_app. specialize (H a). lia.
Qed.

(** The outer join grows with the selection of right rows. *)
Lemma merge_ordered_rows_mono (left right : DataFrame) (on : string)
  (m1 m2 : list bool) :
  mask_le m1 m2 ->
  forall t1, Merge.merge_ordered left (select_rows m1 right) on = Ok t1 ->
    exists t2, Merge.merge_ordered left (select_rows m2 right) on = Ok t2
               /\ List.length (rows t1) <= List.length (rows t2).
Proof.
  intros Hle t1. unfold Merge.merge_ordered, column_index, select_rows.
  cbn [columns rows].
  destruct (index_of on (columns left)) as [kl|]; [|discriminate].
  destruct (index_of on (columns right)) as [kr|]; [|discriminate].
  intros H. injection H as <-. eexists. split; [reflexivity|].
  cbn [rows]. rewrite !sort_length, !length_app, !length_map.
  apply Nat.add_le_mono.
  - apply flat_map_length_le. intros l. rewrite !left_rows_length.
    unfold Merge.matches.
    pose proof (boolean_index_filter_le
                  (fun r => Merge.key_eqb (cell kl l) (cell kr r))
                  m1 m2 Hle (rows right)). lia.
  - unfold Merge.right_only. now apply boolean_index_filter_le.
Qed.

Lemma boolean_index_map {A} (p : A -> bool) (l : list A) :
  boolean_index (map p l) l = filter p l.
Proof.
  induction l as [|a l IH]; simpl; [reflexivity|]. now rewrite IH.
Qed.

Lemma filter_disjoint_length {A} (p q : A -> bool) (l : list A) :
  (forall a, q a = true -> p a = false) ->
  List.length (filter (fun x => p x || q x) l)
  = List.length (filter p l) + List.length (filter q l).
Proof.
  intros H. induction l as [|a l IH]; simpl; [reflexivity|].
  destruct (q a) eqn:Eq.
  - rewrite (H a Eq). simpl. lia.
  - rewrite orb_false_r. destruct (p a); simpl; lia.
Qed.

(** The rows the two modes select, as filters of the events table. *)
Lemma select_rows_fltr (strict : bool) (reactor_num : string)
  (events_df : DataFrame) (k : nat) :
  rows (select_rows
          (fltr_reactor_events strict reactor_num (map (cell k) (rows events_df)))
          events_df)
  = filter (fun row => refers_to reactor_num (cell k row)
                       || (negb strict && isnull (cell k row)))
           (rows events_df).
Proof.
  unfold select_rows. cbn [rows]. destruct strict.
  - rewrite fltr_strict_map, map_map, boolean_index_map.
    apply filter_ext. intros row. now rewrite orb_false_r.
  - rewrite fltr_lenient_map, map_map, boolean_index_map. reflexivity.
Qed.

(** One iteration over the reactors that returns, step by step. *)
Lemma merge_reactor_table (td : string -> result Z) (strict : bool)
  (events_df : DataFrame) (d d' : list (nat * DataFrame))
  (reactor_name : string) (reactor_data : DataFrame) :
  merge_reactor td strict events_df d (reactor_name, reactor_data) = Ok d' ->
  exists reactor_num reference merged n cdf,
    Py.last_char reactor_name = Ok reactor_num
    /\ getcol "Reference" events_df = Ok reference
    /\ str_accessor reference = Ok tt
    /\ Merge.merge_ordered reactor_data
         (select_rows (fltr_reactor_events strict reactor_num reference) events_df)
         "Timestamp" = Ok merged
    /\ int_of_char reactor_num = Ok n
    /\ d' = set_int d n cdf
    /\ List.length (rows cdf) = List.length (rows merged).
Proof.
  unfold merge_reactor. intros H.
  destruct (Py.last_char reactor_name) as [num|]; [|discriminate].
  cbn [result_bind] in H.
  destruct (getcol "Reference" events_df) as [reference|]; [|discriminate].
  cbn [result_bind] in H.
  destruct (str_accessor reference) as [[]|] eqn:Ea; [|discriminate].
  cbn [result_bind] in H.
  destruct (Merge.merge_ordered _ _ _) as [merged|] eqn:Em; [|discriminate].
  cbn [result_bind] in H.
  destruct (inoctime td merged None) as [ino|] eqn:Ei; [|discriminate].
  cbn [result_bind] in H.
  destruct (int_of_char num) as [n|] eqn:En; [|discriminate].
  cbn [result_bind] in H. injection H as <-.
  exists num, reference, merged, n, (setcol "InoculationTime []" ino merged).
  repeat split; trivial.
  apply setcol_rows_length. now apply inoctime_length in Ei.
Qed.




(** On the worked tables the strict merge of reactor 1 has four rows and the
    lenient one five, the fifth being the event without reactor. *)
Example merged_row_counts :
  option_map (fun d => map (fun kv => (fst kv, List.length (rows (snd kv)))) d)
    (match convert_dasdict_2_cdf_dict Instances.decimal_float
             Instances.iso_datetime
             [("TrackData1"%string, Examples.reactor);
              ("Events"%string, Examples.events)] true with
     | Ok d => Some d
     | Raise _ => None
     end) = Some [(1, 4)]
  /\ option_map (fun d => map (fun kv => (fst kv, List.length (rows (snd kv)))) d)
       (match convert_dasdict_2_cdf_dict Instances.decimal_float
                Instances.iso_datetime
                [("TrackData1"%string, Examples.reactor);
                 ("Events"%string, Examples.events)] false with
        | Ok d => Some d
        | Raise _ => None
        end) = Some [(1, 5)].
Proof. split; vm_compute; reflexivity. Qed.

(** ** Column Name Normalizer *)

Lemma das_converter_dict_normalized :
  forallb (fun kv => forallb (fun n => pair_normalized n kv) (seq 1 9))
          das_converter_dict = true.
Proof. vm_compute. reflexivity. Qed.



(** The two examples of the docstring. *)
Example docstring_examples :
  h_standardize_das_cdf_cols_names
    [ "Unit 1.XCO2 1.Out [%]"; "Unit 1.XCO21.Out [%]";
      "Unit 1.Inoculation Time []"; "Unit 1.InoculationTime []" ]%string
  = [ "XCO2.Out [%]"; "XCO2.Out [%]";
      "InoculationTime []"; "InoculationTime []" ]%string.
Proof. reflexivity. Qed.

(** * Further properties *)

(** ** Archive Reader: the member that is read *)

Lemma zf_read_absent (zf : ZipFile) (name : string) :
  ~ In name (namelist zf) -> zf_read zf name = Raise KeyError.
Proof.
  induction zf as [|a zf IH]; intros H; simpl; [reflexivity|].
  rewrite IH by (intros Hin; apply H; now right).
  destruct (String.eqb name (member_name a)) eqn:E; [|reflexivity].
  apply String.eqb_eq in E. exfalso. apply H. now left.
Qed.

Lemma zf_read_unique (zf : ZipFile) (m : ZipMember) :
  NoDup (namelist zf) -> In m zf ->
  zf_read zf (member_name m) = Ok (member_data m).
Proof.
  induction zf as [|a zf IH]; intros Hnd Hin; [contradiction|].
  simpl in Hnd. inversion Hnd as [|? ? Hnotin Hnd']; subst.
  destruct Hin as [-> | Hin]; simpl.
  - rewrite zf_read_absent by assumption. now rewrite String.eqb_refl.
  - now rewrite IH.
Qed.

Lemma filter_map_existsb {A B} (p : B -> bool) (f : A -> B) (l : list A) :
  existsb (fun a => p (f a)) l = negb (List.length (filter p (map f l)) =? 0).
Proof.
  induction l as [|a l IH]; simpl; [reflexivity|].
  destruct (p (f a)); simpl; [reflexivity|exact IH].
Qed.

(** X1. In an archive whose member names are distinct, [read_daszip] gives
    the decoded content of the first member whose name contains the pattern,
    and warns, naming that member, exactly when a later member matches too. *)
Theorem read_daszip_first_match :
  forall (pre post : ZipFile) (m : ZipMember) (pattern : string)
         (decode : string -> result string),
    NoDup (namelist (pre ++ m :: post)) ->
    (forall x, In x pre -> Py.contains pattern (member_name x) = false) ->
    Py.contains pattern (member_name m) = true ->
    read_daszip (pre ++ m :: post) pattern decode
    = ((if existsb (fun x => Py.contains pattern (member_name x)) post
        then ["Too many files found in the zip archive. File selected: "
              @@ member_name m]
        else []),
       decode (member_data m)).
Proof.
  intros pre post m pattern decode Hnd Hpre Hm. unfold read_daszip.
  assert (Hpos : filter (fun file => Py.contains pattern file)
                        (namelist (pre ++ m :: post))
                 = member_name m
                   :: filter (fun file => Py.contains pattern file)
                             (namelist post)).
  { unfold namelist. rewrite map_app, filter_app. simpl. rewrite Hm.
    rewrite filter_none; [reflexivity|].
    intros name Hin. apply in_map_iff in Hin. destruct Hin as [x [<- Hx]].
    now apply Hpre. }
  rewrite Hpos.
  pose proof (zf_read_unique _ m Hnd
                (in_or_app pre (m :: post) m (or_intror (or_introl eq_refl))))
    as Hread.
  rewrite (filter_map_existsb (fun file => Py.contains pattern file) member_name).
  unfold namelist.
  destruct (filter _ (map member_name post)) as [|n l];
    cbn [List.length Nat.ltb Nat.leb Nat.eqb negb hd Py.getitem nth_error
         lift warn ret bind];
    rewrite Hread; cbn [bind];
    destruct (decode (member_data m)); reflexivity.
Qed.

Lemma read_daszip_first_match_witness :
  read_daszip
    ([ {| member_name := "Notes.txt"; member_data := "n" |} ]
     ++ {| member_name := "run/Control.csv"; member_data := "text" |}
     :: [ {| member_name := "old/Control.csv.bak"; member_data := "b" |} ])
    "Control.csv" (fun b => Ok b)
  = ((if existsb (fun x => Py.contains "Control.csv" (member_name x))
                 [ {| member_name := "old/Control.csv.bak"; member_data := "b" |} ]
      then ["Too many files found in the zip archive. File selected: "
            @@ "run/Control.csv"]
      else []),
     Ok "text"%string).
Proof.
  apply (read_daszip_first_match
           [ {| member_name := "Notes.txt"; member_data := "n" |} ]
           [ {| member_name := "old/Control.csv.bak"; member_data := "b" |} ]
           {| member_name := "run/Control.csv"; member_data := "text" |}
           "Control.csv" (fun b => Ok b)).
  - repeat constructor; simpl; intuition discriminate.
  - intros x [<- | []]. reflexivity.
  - reflexivity.
Defined.

(** ** Section Splitter: one iteration, spelled out *)

Lemma append_empty_r (s : string) : s @@ EmptyString = s.
Proof. induction s as [|c s IH]; simpl; [reflexivity|now rewrite IH]. Qed.

Lemma process_section_eq (st : splitter_state) (section : string) :
  process_section st section
  = ((if is_setup (raw_name section) && overwriting_risk st
      then [setup_warning] else []),
     let name := stored_name (overwriting_risk st) section in
     let risk := next_risk (overwriting_risk st) section in
     match Pandas.read_csv (Py.join (String Py.LF EmptyString)
                                    (section_body section)) with
     | Ok df =>
         Ok {| overwriting_risk := risk;
               sections_dict :=
                 Py.set (sections_dict st) name
                   (if Py.startswith "TrackData" name
                    then {| columns := h_standardize_das_cdf_cols_names (columns df);
                            rows := rows df |}
                    else df) |}
     | Raise EmptyDataError =>
         Ok {| overwriting_risk := risk; sections_dict := sections_dict st |}
     | Raise ParserError =>
         match h_parse_irregular_csv (section_body section) with
         | Ok df =>
             Ok {| overwriting_risk := risk;
                   sections_dict := Py.set (sections_dict st) name df |}
         | Raise e => Raise e
         end
     | Raise e => Raise e
     end).
Proof.
  unfold process_section, stored_name, next_risk, stored_name. cbv zeta.
  fold (section_body section).
  assert (Hname :
            (if overwriting_risk st
             then Py.strip [Re.LBRACKET; Py.DQUOTE; ascii_of_nat 93]
                    (hd EmptyString (Py.split Py.CRLF (Py.lstrip section)))
                  @@ EmptyString
             else Py.strip [Re.LBRACKET; Py.DQUOTE; ascii_of_nat 93]
                    (hd EmptyString (Py.split Py.CRLF (Py.lstrip section))))
            = raw_name section).
  { unfold raw_name. destruct (overwriting_risk st);
      [apply append_empty_r|reflexivity]. }
  rewrite Hname. clear Hname.
  fold (is_setup (raw_name section)).
  destruct (is_setup (raw_name section)) eqn:Hs.
  - assert (Hs' := Hs). unfold is_setup in Hs'. apply andb_prop in Hs' as [Hs' _].
    destruct (last_char_of_setup _ Hs') as [c Hc]. rewrite Hc.
    destruct (overwriting_risk st); cbn [andb lift bind warn ret fst snd app];
      destruct (Pandas.read_csv _) as [df|[]]; cbn [bind ret raise lift app];
      try reflexivity;
      destruct (h_parse_irregular_csv _); reflexivity.
  - cbn [andb lift bind warn ret fst snd app].
    destruct (Pandas.read_csv _) as [df|[]]; cbn [bind ret raise lift app];
      try reflexivity;
      destruct (h_parse_irregular_csv _); reflexivity.
Qed.

(** ** Dicts *)

Lemma get_set_same {V} (d : Py.dict V) (k : string) (v : V) :
  Py.get (Py.set d k v) k = Some v.
Proof.
  induction d as [|[k' v'] d IH]; simpl.
  - now rewrite String.eqb_refl.
  - destruct (String.eqb k k') eqn:E; simpl; rewrite E; [reflexivity|exact IH].
Qed.

Lemma get_set_other {V} (d : Py.dict V) (k k' : string) (v : V) :
  String.eqb k' k = false -> Py.get (Py.set d k v) k' = Py.get d k'.
Proof.
  intros Hne. induction d as [|[k0 v0] d IH]; simpl.
  - now rewrite Hne.
  - destruct (String.eqb k k0) eqn:E; simpl.
    + apply String.eqb_eq in E. subst k0. now rewrite Hne.
    + now rewrite IH.
Qed.

Lemma in_set {V} (d : Py.dict V) (k : string) (v : V) (x : string * V) :
  In x (Py.set d k v) -> x = (k, v) \/ In x d.
Proof.
  induction d as [|[k0 v0] d IH]; simpl.
  - intros [<- | []]. now left.
  - destruct (String.eqb k k0) eqn:E; simpl.
    + apply String.eqb_eq in E. subst k0. intros [<- | H]; auto.
    + intros [<- | H]; auto. destruct (IH H); auto.
Qed.

Lemma set_NoDup {V} (d : Py.dict V) (k : string) (v : V) :
  NoDup (map fst d) -> NoDup (map fst (Py.set d k v)).
Proof.
  induction d as [|[k0 v0] d IH]; simpl; intros H.
  - repeat constructor. intros [].
  - inversion H as [|? ? Hnotin Hnd]; subst.
    destruct (String.eqb k k0) eqn:E; simpl.
    + constructor; assumption.
    + constructor; [|now apply IH].
      intros Hin. apply in_map_iff in Hin. destruct Hin as [[k1 v1] [Hk Hin]].
      simpl in Hk. subst k1. apply in_set in Hin as [Heq | Hin].
      * injection Heq as -> _. now rewrite String.eqb_refl in E.
      * apply Hnotin. change k0 with (fst (k0, v1)). now apply in_map.
Qed.

(** ** Section Splitter: what one iteration does to the dict *)

Lemma existsb_false_forall {A} (p : A -> bool) (l : list A) :
  existsb p l = false -> forall a, In a l -> p a = false.
Proof.
  intros H a Ha. destruct (p a) eqn:E; [|reflexivity].
  assert (X : existsb p l = true) by (apply existsb_exists; eauto). congruence.
Qed.

Lemma process_section_dict (st : splitter_state) (section : string)
  (w : list string) (st' : splitter_state) :
  process_section st section = (w, Ok st') ->
  sections_dict st' = sections_dict st
  \/ exists df,
       sections_dict st'
       = Py.set (sections_dict st) (stored_name (overwriting_risk st) section) df.
Proof.
  rewrite process_section_eq. cbv zeta. intros H.
  injection H as _ H.
  destruct (Pandas.read_csv _) as [df|e] eqn:Er.
  - injection H as <-. right. cbn [sections_dict]. eexists. reflexivity.
  - destruct e; try discriminate.
    + injection H as <-. now left.
    + destruct (h_parse_irregular_csv _) as [df|] eqn:Eh; [|discriminate].
      injection H as <-. right. exists df. reflexivity.
Qed.

(** ** Section Splitter: names, flag and warning *)

(** X3. A section whose name is not [Setup<N>] is stored under its name as
    it stands, whether the flag is set or not, and without a warning: the
    iteration leaves the dict alone or assigns the table to that name. *)
Theorem plain_section_name_unchanged :
  forall (st : splitter_state) (section : string)
         (w : list string) (st' : splitter_state),
    is_setup (raw_name section) = false ->
    process_section st section = (w, Ok st') ->
    w = []
    /\ (sections_dict st' = sections_dict st
        \/ exists df,
             sections_dict st' = Py.set (sections_dict st) (raw_name section) df
             /\ Py.get (sections_dict st') (raw_name section) = Some df).
Proof.
  intros st section w st' Hs H.
  pose proof (process_section_dict _ _ _ _ H) as Hd.
  rewrite process_section_eq in H. rewrite Hs in H. cbn [andb] in H.
  injection H as <- _. split; [reflexivity|].
  unfold stored_name in Hd. rewrite Hs in Hd. cbn [andb] in Hd.
  destruct Hd as [Hd | [df Hd]]; [now left|].
  right. exists df. split; [exact Hd|]. rewrite Hd. apply get_set_same.
Qed.

Lemma plain_section_name_unchanged_witness :
  [] = @nil string
  /\ (sections_dict
        {| overwriting_risk := true;
           sections_dict := [("Device"%string, Examples.name_value "D" "2")] |}
      = []
      \/ exists df,
           sections_dict
             {| overwriting_risk := true;
                sections_dict := [("Device"%string, Examples.name_value "D" "2")] |}
           = Py.set [] (raw_name (Py.join Py.CRLF ["[Device]"; "Name;Value"; "D;2"]%string)) df
           /\ Py.get
                (sections_dict
                   {| overwriting_risk := true;
                      sections_dict :=
                        [("Device"%string, Examples.name_value "D" "2")] |})
                (raw_name (Py.join Py.CRLF ["[Device]"; "Name;Value"; "D;2"]%string))
              = Some df).
Proof.
  apply (plain_section_name_unchanged
           {| overwriting_risk := true; sections_dict := [] |}
           (Py.join Py.CRLF ["[Device]"; "Name;Value"; "D;2"]%string)).
  - reflexivity.
  - vm_compute. reflexivity.
Defined.

Lemma chars_str (l : list ascii) : Py.chars (Py.str l) = l.
Proof. apply list_ascii_of_string_of_list_ascii. Qed.

Lemma drop_last_of_setup (s : string) :
  String.eqb (Py.take 5 s) "Setup" = true ->
  exists t, Py.drop_last s = String "S" t.
Proof.
  intros H. apply String.eqb_eq in H.
  destruct s as [|a [|b [|c [|d [|e r]]]]]; try discriminate.
  unfold Py.take, Py.chars, Py.str in H. simpl in H.
  injection H as -> -> -> -> ->.
  unfold Py.drop_last, Py.chars, Py.str. simpl. eexists. reflexivity.
Qed.

(** X4. A [Setup<N>] section met while the flag is set is stored under its
    name without the last character (so without its number), the warning is
    given once, and the flag stays set. *)
Theorem reopened_setup_loses_its_number :
  forall (st : splitter_state) (section : string)
         (w : list string) (st' : splitter_state),
    is_setup (raw_name section) = true ->
    overwriting_risk st = true ->
    process_section st section = (w, Ok st') ->
    w = [setup_warning]
    /\ overwriting_risk st' = true
    /\ (sections_dict st' = sections_dict st
        \/ exists df,
             sections_dict st'
             = Py.set (sections_dict st) (Py.drop_last (raw_name section)) df).
Proof.
  intros st section w st' Hs Hr H.
  pose proof (process_section_dict _ _ _ _ H) as Hd.
  rewrite process_section_eq in H. rewrite Hs, Hr in H. cbn [andb] in H.
  injection H as <- H. split; [reflexivity|].
  unfold stored_name in Hd. rewrite Hs, Hr in Hd. cbn [andb] in Hd.
  split.
  - assert (Hn : next_risk true section = true).
    { unfold next_risk, stored_name. rewrite Hs. cbn [andb].
      assert (Hs' := Hs). unfold is_setup in Hs'.
      apply andb_prop in Hs' as [Hs' _].
      destruct (drop_last_of_setup _ Hs') as [t ->]. reflexivity. }
    cbv zeta in H. rewrite Hn in H.
    destruct (Pandas.read_csv _) as [df|[]]; try discriminate;
      try (injection H as <-; reflexivity).
    destruct (h_parse_irregular_csv _); [|discriminate].
    injection H as <-. reflexivity.
  - destruct Hd as [Hd | [df Hd]]; [now left|right; now exists df].
Qed.

Lemma reopened_setup_loses_its_number_witness :
  [setup_warning] = [setup_warning]
  /\ overwriting_risk
       {| overwriting_risk := true;
          sections_dict := [("Setup"%string, Examples.name_value "B" "2")] |}
     = true
  /\ (sections_dict
        {| overwriting_risk := true;
           sections_dict := [("Setup"%string, Examples.name_value "B" "2")] |}
      = []
      \/ exists df,
           sections_dict
             {| overwriting_risk := true;
                sections_dict := [("Setup"%string, Examples.name_value "B" "2")] |}
           = Py.set []
               (Py.drop_last
                  (raw_name (Py.join Py.CRLF ["[Setup2]"; "Name;Value"; "B;2"]%string)))
               df).
Proof.
  apply (reopened_setup_loses_its_number
           {| overwriting_risk := true; sections_dict := [] |}
           (Py.join Py.CRLF ["[Setup2]"; "Name;Value"; "B;2"]%string)).
  - reflexivity.
  - reflexivity.
  - vm_compute. reflexivity.
Defined.

(** ** Irregular-CSV Parser: any width of the header *)

Lemma h_parse_irregular_csv_defined (header_line : string) (data : list string) :
  Forall (fun l => single_line l = true) (header_line :: data) ->
  Forall (fun l => Csv.closed l = true) (header_line :: data) ->
  data <> [] ->
  let H := List.length (Csv.fields header_line) in
  let M := list_max (map (@List.length string) (map Csv.fields data)) in
  NoDup (Csv.fields header_line ++ unknown_names (M - H)) ->
  exists df,
    h_parse_irregular_csv (header_line :: data) = Ok df
    /\ columns df = Csv.fields header_line ++ unknown_names (M - H)
    /\ rows df
       = map (fun r => map Pandas.to_cell r
                       ++ repeat NaN (Nat.max H M - List.length r))
             (map Csv.fields
                  (filter (fun l => negb (Pandas.blank_line l)) data)).
Proof.
  intros Hlines Hclosed Hne H M Hdup.
  assert (Hnames : List.length (Csv.fields header_line ++ unknown_names (M - H))
                   = Nat.max H M).
  { rewrite length_app, unknown_names_length. unfold H, M in *. lia. }
  assert (Hrow : forall r,
             In r (map Csv.fields
                       (filter (fun l => negb (Pandas.blank_line l)) data)) ->
             List.length r <= M).
  { intros r Hr. apply in_map_iff in Hr.
    destruct Hr as [l [<- Hl]]. apply filter_In in Hl as [Hl _].
    apply length_le_list_max. apply in_map. now apply in_map. }
  inversion Hclosed as [|? ? Hh Hdata]; subst.
  unfold h_parse_irregular_csv. rewrite (reader_closed _ Hclosed).
  cbn [map].
  rewrite py_max_nonempty by (destruct data; [congruence|discriminate]).
  fold M. fold H. unfold Pandas.read_csv_names.
  rewrite (distinct_NoDup _ Hdup). cbn [negb].
  rewrite text_lines_join by (assumption || discriminate).
  rewrite (skip_record_closed _ _ Hh), (tokenize_closed _ Hdata).
  rewrite Hnames.
  rewrite existsb_none.
  2:{ intros r Hr. apply Nat.ltb_ge. specialize (Hrow r Hr). lia. }
  eexists. split; [reflexivity|]. cbn [columns rows].
  split; [reflexivity|].
  apply map_ext. intros r. unfold Pandas.pad_row. now rewrite length_map.
Qed.



(** ** Column Name Normalizer: names without a digit *)

Lemma has_digit_tail (c : ascii) (s : string) :
  has_digit (String c s) = false -> Py.isdigit c = false /\ has_digit s = false.
Proof.
  unfold has_digit, Py.chars. simpl. intros H.
  now apply orb_false_iff in H.
Qed.

Lemma sub_no_match (m : string -> option nat) (repl s : string) :
  (forall t, has_digit t = false -> m t = None) ->
  has_digit s = false -> Re.sub m repl s = s.
Proof.
  intros Hm. unfold Re.sub. induction s as [|c s IH]; intros H; [reflexivity|].
  cbn [Re.sub_go]. rewrite (Hm _ H).
  apply has_digit_tail in H as [_ H]. now rewrite IH.
Qed.

Lemma digit_dot_none (t : string) : has_digit t = false -> Re.digit_dot t = None.
Proof.
  intros H. destruct t as [|a [|b rest]]; try reflexivity.
  apply has_digit_tail in H as [Ha H]. apply has_digit_tail in H as [Hb _].
  unfold Re.digit_dot. rewrite Ha, Hb. now rewrite andb_false_r.
Qed.

Lemma digit_blank_bracket_none (t : string) :
  has_digit t = false -> Re.digit_blank_bracket t = None.
Proof.
  intros H. destruct t as [|a [|b [|c rest]]]; try reflexivity.
  apply has_digit_tail in H as [Ha _].
  unfold Re.digit_blank_bracket. now rewrite Ha.
Qed.

Lemma unit_prefix_none (t : string) :
  has_digit t = false -> Re.unit_prefix t = None.
Proof.
  intros H. unfold Re.unit_prefix.
  destruct (String.prefix "Unit " t); [|reflexivity].
  rewrite chars_str.
  destruct (skipn 5 (Py.chars t)) as [|d [|p l]] eqn:E; try reflexivity.
  assert (Hd : In d (Py.chars t)).
  { rewrite <- (firstn_skipn 5 (Py.chars t)), E. apply in_or_app. right. now left. }
  unfold has_digit in H.
  now rewrite (existsb_false_forall _ _ H d Hd).
Qed.

(** X7. A column name without a digit goes through the three rewriting
    steps unchanged: it is only looked up in the table, so it stays as it is
    unless it is one of the version-4 names.  The [Timestamp] column, on
    which the tables are merged, keeps its name. *)
Theorem standardize_name_without_digit :
  forall name : string,
    has_digit name = false ->
    standardize_name name = replace_by das_converter_dict name
    /\ (Py.get das_converter_dict name = None -> standardize_name name = name).
Proof.
  intros name H.
  assert (E : standardize_name name = replace_by das_converter_dict name).
  { unfold standardize_name.
    rewrite (sub_no_match _ _ _ unit_prefix_none H).
    rewrite (sub_no_match _ _ _ digit_dot_none H).
    now rewrite (sub_no_match _ _ _ digit_blank_bracket_none H). }
  split; [exact E|].
  intros Hg. rewrite E. unfold replace_by. now rewrite Hg.
Qed.

Lemma standardize_name_without_digit_witness :
  standardize_name "Timestamp" = replace_by das_converter_dict "Timestamp"
  /\ (Py.get das_converter_dict "Timestamp" = None ->
      standardize_name "Timestamp" = "Timestamp"%string).
Proof.
  apply (standardize_name_without_digit "Timestamp"). reflexivity.
Defined.

(** ** Event Extractor: failures and what it leaves untouched *)

Lemma mapM_raise {A B} (f : A -> result B) (l : list A) (x : A) (e : exn) :
  In x l -> f x = Raise e -> exists e', mapM f l = Raise e'.
Proof.
  induction l as [|a l IH]; intros Hin Hx; [contradiction|].
  simpl. destruct (f a) as [b|e0] eqn:Ea; [|cbn [result_bind]; eauto].
  cbn [result_bind]. destruct Hin as [-> | Hin]; [congruence|].
  destruct (IH Hin Hx) as [e' ->]. cbn [result_bind]. eauto.
Qed.

Lemma in_added_volume_selection (description : list value) (s : string) :
  In (Str s) description ->
  Py.startswith "Added volume" s = true ->
  In (Str s)
     (boolean_index (str_startswith_mask "Added volume" description) description).
Proof.
  intros Hin Hs. induction description as [|d ds IH]; [contradiction|].
  cbn [str_startswith_mask map boolean_index].
  destruct Hin as [-> | Hin].
  - rewrite Hs. now left.
  - destruct (match d with Str s0 => _ | _ => false end); [right|];
      now apply IH.
Qed.

(** X8. One row is enough to make the whole call fail: when the
    [Description] of some row starts with [Added volume] and the characters
    between the first 13 and the last 13 are not a number,
    [h_extract_volume_changes] raises and no table is returned. *)
Theorem one_bad_volume_fails_all :
  forall (astype_float : string -> result spec_float)
         (events_df : DataFrame) (description : list value)
         (s : string) (e : exn),
    getcol "Description" events_df = Ok description ->
    In (Str s) description ->
    Py.startswith "Added volume" s = true ->
    astype_float (Py.slice 13 13 s) = Raise e ->
    exists e', h_extract_volume_changes astype_float events_df = Raise e'.
Proof.
  intros af events_df description s e Hd Hin Hs He.
  unfold h_extract_volume_changes. rewrite Hd. cbn [result_bind].
  destruct (str_accessor description) as [[]|]; cbn [result_bind]; [|eauto].
  unfold vol_change_float.
  destruct (mapM_raise (fun v => af (str_slice 13 13 v)) _ (Str s) e
              (in_added_volume_selection description s Hin Hs) He)
    as [e' ->].
  cbn [result_bind]. eauto.
Qed.

Lemma one_bad_volume_fails_all_witness :
  exists e',
    h_extract_volume_changes Instances.decimal_float
      {| columns := ["Timestamp"; "Reference"; "Description"]%string;
         rows := [ [Str "2021-03-01 10:00:00"; Str "Unit 1";
                    Str "Added volume 5.00 mL to vessel"];
                   [Str "2021-03-01 11:00:00"; Str "Unit 1";
                    Str "Added volume about 2 mL to vessel"] ] |}
    = Raise e'.
Proof.
  apply (one_bad_volume_fails_all Instances.decimal_float _
           [ Str "Added volume 5.00 mL to vessel";
             Str "Added volume about 2 mL to vessel" ]
           "Added volume about 2 mL to vessel" ValueError).
  - reflexivity.
  - right. left. reflexivity.
  - reflexivity.
  - vm_compute. reflexivity.
Defined.

Lemma chars_length (s : string) : List.length (Py.chars s) = String.length s.
Proof. induction s as [|c s IH]; simpl; [reflexivity|now rewrite IH]. Qed.

Lemma slice_of_short (s : string) :
  String.length s <= 26 -> Py.slice 13 13 s = EmptyString.
Proof.
  intros H. unfold Py.slice. rewrite skipn_all2; [reflexivity|].
  rewrite length_firstn. lia.
Qed.

(** X9. A [Description] that starts with [Added volume] and has at most 26
    characters leaves nothing between the first 13 and the last 13; as the
    empty string is no number, such a row makes [h_extract_volume_changes]
    raise. *)
Theorem short_volume_message_fails :
  forall (astype_float : string -> result spec_float)
         (events_df : DataFrame) (description : list value)
         (s : string) (e : exn),
    astype_float EmptyString = Raise e ->
    getcol "Description" events_df = Ok description ->
    In (Str s) description ->
    Py.startswith "Added volume" s = true ->
    String.length s <= 26 ->
    Py.slice 13 13 s = EmptyString
    /\ exists e', h_extract_volume_changes astype_float events_df = Raise e'.
Proof.
  intros af events_df description s e He Hd Hin Hs Hlen.
  pose proof (slice_of_short s Hlen) as Hslice. split; [exact Hslice|].
  unfold h_extract_volume_changes. rewrite Hd. cbn [result_bind].
  destruct (str_accessor description) as [[]|]; cbn [result_bind]; [|eauto].
  unfold vol_change_float.
  assert (He' : (fun v => af (str_slice 13 13 v)) (Str s) = Raise e)
    by (cbn [str_slice]; now rewrite Hslice).
  destruct (mapM_raise (fun v => af (str_slice 13 13 v)) _ (Str s) e
              (in_added_volume_selection description s Hin Hs) He')
    as [e' ->].
  cbn [result_bind]. eauto.
Qed.

Lemma short_volume_message_fails_witness :
  Py.slice 13 13 "Added volume 5.00 mL total" = EmptyString
  /\ exists e',
       h_extract_volume_changes Instances.decimal_float
         {| columns := ["Timestamp"; "Reference"; "Description"]%string;
            rows := [ [Str "2021-03-01 10:00:00"; Str "Unit 1";
                       Str "Added volume 5.00 mL total"] ] |}
       = Raise e'.
Proof.
  apply (short_volume_message_fails Instances.decimal_float _
           [Str "Added volume 5.00 mL total"] "Added volume 5.00 mL total"
           ValueError).
  - reflexivity.
  - reflexivity.
  - left. reflexivity.
  - reflexivity.
  - simpl. lia.
Defined.

Lemma not_in_new_columns (name : string) :
  ~ In name new_event_columns ->
  String.eqb name "Vol_added" = false
  /\ String.eqb name "Liquid_added" = false
  /\ String.eqb name "Vol_removed" = false
  /\ String.eqb name "Feed_pump" = false
  /\ String.eqb name "Feed_balance" = false.
Proof.
  intros H. repeat split; apply String.eqb_neq; intros ->; apply H;
    unfold new_event_columns; simpl; tauto.
Qed.

(** X10. The table [h_extract_volume_changes] returns has the rows of the
    events table, one for one, and every column of the events table other
    than the five it assigns reads as before; a name the events table does
    not have is still missing. *)
Theorem h_extract_volume_changes_frame :
  forall (astype_float : string -> result spec_float)
         (events_df new_events_df : DataFrame) (name : string),
    h_extract_volume_changes astype_float events_df = Ok new_events_df ->
    ~ In name new_event_columns ->
    List.length (rows new_events_df) = List.length (rows events_df)
    /\ getcol name new_events_df = getcol name events_df.
Proof.
  intros af events_df new name H Hname.
  destruct (not_in_new_columns name Hname) as (N1 & N2 & N3 & N4 & N5).
  unfold h_extract_volume_changes in H.
  destruct (getcol "Description" events_df) as [description|] eqn:Hd;
    [|discriminate].
  cbn [result_bind] in H.
  destruct (str_accessor description) as [[]|]; [|discriminate].
  cbn [result_bind] in H.
  destruct (vol_change_float af description) as [vs|] eqn:Hvs; [|discriminate].
  cbn [result_bind] in H. injection H as <-.
  assert (Hlen : List.length vs = List.length (rows events_df)).
  { apply vol_change_float_rows in Hvs. apply Forall2_length in Hvs.
    unfold getcol in Hd. destruct (column_index _ _); [|discriminate].
    injection Hd as <-. rewrite length_map in Hvs. lia. }
  split.
  - repeat rewrite setcol_rows_length; rewrite ?length_map; trivial.
  - repeat (rewrite getcol_setcol_other;
            [| assumption
             | repeat rewrite setcol_rows_length; rewrite ?length_map; trivial]).
    reflexivity.
Qed.

Lemma h_extract_volume_changes_frame_witness :
  List.length (rows Examples.events_extracted)
  = List.length (rows Examples.events)
  /\ getcol "Reference" Examples.events_extracted
     = getcol "Reference" Examples.events.
Proof.
  apply (h_extract_volume_changes_frame Instances.decimal_float
           Examples.events Examples.events_extracted "Reference").
  - vm_compute. reflexivity.
  - unfold new_event_columns. simpl. intuition discriminate.
Defined.

(** X11. The three columns added for later use hold no value: in the table
    [h_extract_volume_changes] returns, [Liquid_added] is NaN in every row
    and [Feed_pump] and [Feed_balance] are [None] in every row. *)
Theorem h_extract_volume_changes_placeholders :
  forall (astype_float : string -> result spec_float)
         (events_df new_events_df : DataFrame),
    h_extract_volume_changes astype_float events_df = Ok new_events_df ->
    getcol "Liquid_added" new_events_df
    = Ok (repeat NaN (List.length (rows events_df)))
    /\ getcol "Feed_pump" new_events_df
       = Ok (repeat PyNone (List.length (rows events_df)))
    /\ getcol "Feed_balance" new_events_df
       = Ok (repeat PyNone (List.length (rows events_df))).
Proof.
  intros af events_df new H.
  unfold h_extract_volume_changes in H.
  destruct (getcol "Description" events_df) as [description|] eqn:Hd;
    [|discriminate].
  cbn [result_bind] in H.
  destruct (str_accessor description) as [[]|]; [|discriminate].
  cbn [result_bind] in H.
  destruct (vol_change_float af description) as [vs|] eqn:Hvs; [|discriminate].
  cbn [result_bind] in H. injection H as <-.
  assert (Hlen : List.length vs = List.length (rows events_df)).
  { apply vol_change_float_rows in Hvs. apply Forall2_length in Hvs.
    unfold getcol in Hd. destruct (column_index _ _); [|discriminate].
    injection Hd as <-. rewrite length_map in Hvs. lia. }
  rewrite <- !map_const.
  repeat split.
  - repeat (rewrite getcol_setcol_other;
            [| reflexivity
             | repeat rewrite setcol_rows_length; rewrite ?length_map; trivial]).
    apply getcol_setcol_same.
    repeat rewrite setcol_rows_length; rewrite ?length_map; trivial.
  - repeat (rewrite getcol_setcol_other;
            [| reflexivity
             | repeat rewrite setcol_rows_length; rewrite ?length_map; trivial]).
    apply getcol_setcol_same.
    repeat rewrite setcol_rows_length; rewrite ?length_map; trivial.
  - apply getcol_setcol_same.
    repeat rewrite setcol_rows_length; rewrite ?length_map; trivial.
Qed.

Lemma h_extract_volume_changes_placeholders_witness :
  getcol "Liquid_added" Examples.events_extracted
  = Ok (repeat NaN (List.length (rows Examples.events)))
  /\ getcol "Feed_pump" Examples.events_extracted
     = Ok (repeat PyNone (List.length (rows Examples.events)))
  /\ getcol "Feed_balance" Examples.events_extracted
     = Ok (repeat PyNone (List.length (rows Examples.events))).
Proof.
  apply (h_extract_volume_changes_placeholders Instances.decimal_float
           Examples.events Examples.events_extracted).
  vm_compute. reflexivity.
Defined.

(** ** Inoculation time: explicit instant, missing reference, origin *)

(** With the reference found in the third column. *)
Lemma inoctime_none_eq (td : string -> result Z) (cdf : DataFrame)
  (idx : nat) (times : list (option Z)) :
  3 <= List.length (columns cdf) ->
  first_valid_index (map (cell 2) (rows cdf)) = Some idx ->
  mapM (to_datetime_value td) (map (cell 0) (rows cdf)) = Ok times ->
  (forall t r, In (Some t) times -> nth_error times idx = Some (Some r) ->
               int64 (t - r) = true) ->
  exists reference,
    nth_error times idx = Some reference
    /\ inoctime td cdf None = Ok (map (timedelta reference) times).
Proof.
  intros Hcols Hidx Htimes Hfits.
  destruct (first_valid_index_spec _ _ Hidx) as [[v [Hv _]] _].
  assert (Hlt : idx < List.length (map (cell 0) (rows cdf))).
  { rewrite length_map.
    assert (Hs : nth_error (map (cell 2) (rows cdf)) idx <> None) by congruence.
    apply nth_error_Some in Hs. now rewrite length_map in Hs. }
  destruct (nth_error (map (cell 0) (rows cdf)) idx) as [v0|] eqn:Hv0.
  2:{ apply nth_error_None in Hv0. lia. }
  destruct (mapM_nth_error _ _ _ Htimes idx v0 Hv0) as (reference & Href & Hti).
  exists reference. split; [exact Hti|].
  unfold inoctime.
  rewrite (iloc_col_defined 2) by lia. cbn [result_bind]. rewrite Hidx.
  rewrite (iloc_col_defined 0) by lia. cbn [result_bind].
  unfold Py.getitem. rewrite Hv0. cbn [result_bind].
  rewrite Href. cbn [result_bind]. rewrite Htimes. cbn [result_bind].
  apply sub_timestamp_fits. intros t r Ht ->. now apply (Hfits t r).
Qed.

(** X12. At the row that gives the reference instant the inoculation time
    is zero, provided that row has a timestamp and the differences to it fit
    in 64 bits. *)
Theorem inoctime_zero_at_reference :
  forall (to_datetime : string -> result Z) (cdf : DataFrame)
         (idx : nat) (times : list (option Z)) (t0 : Z),
    3 <= List.length (columns cdf) ->
    first_valid_index (map (cell 2) (rows cdf)) = Some idx ->
    mapM (to_datetime_value to_datetime) (map (cell 0) (rows cdf)) = Ok times ->
    nth_error times idx = Some (Some t0) ->
    (forall t, In (Some t) times -> int64 (t - t0) = true) ->
    exists deltas,
      inoctime to_datetime cdf None = Ok deltas
      /\ nth_error deltas idx = Some (Timedelta 0).
Proof.
  intros td cdf idx times t0 Hcols Hidx Htimes Ht0 Hfits.
  destruct (inoctime_none_eq td cdf idx times Hcols Hidx Htimes)
    as (reference & Href & ->).
  { intros t r Ht Hr. rewrite Ht0 in Hr. injection Hr as <-. now apply Hfits. }
  rewrite Ht0 in Href. injection Href as <-.
  eexists. split; [reflexivity|].
  rewrite nth_error_map, Ht0. cbn [option_map timedelta].
  now rewrite Z.sub_diag.
Qed.

Lemma inoctime_zero_at_reference_witness :
  exists deltas,
    inoctime Instances.iso_datetime Examples.reactor None = Ok deltas
    /\ nth_error deltas 1 = Some (Timedelta 0).
Proof.
  apply (inoctime_zero_at_reference Instances.iso_datetime Examples.reactor 1
           [Some 1614589200000000000; Some 1614592800000000000;
            Some 1614598200000000000]%Z 1614592800000000000%Z).
  - simpl. lia.
  - reflexivity.
  - vm_compute. reflexivity.
  - reflexivity.
  - intros t [E | [E | [E | []]]]; injection E as <-; reflexivity.
Defined.

Lemma first_valid_index_none (series : list value) :
  Forall (fun v => isnull v = true) series -> first_valid_index series = None.
Proof.
  induction 1 as [|v l Hv _ IH]; simpl; [reflexivity|]. now rewrite Hv, IH.
Qed.

(** X13. When the third column holds no value at all (in particular on a
    table without rows), [inoctime] called without an instant raises
    [TypeError]: there is no row to take the reference from. *)
Theorem inoctime_without_reference :
  forall (to_datetime : string -> result Z) (cdf : DataFrame),
    3 <= List.length (columns cdf) ->
    Forall (fun row => isnull (cell 2 row) = true) (rows cdf) ->
    inoctime to_datetime cdf None = Raise TypeError.
Proof.
  intros td cdf Hcols Hnull. unfold inoctime.
  rewrite (iloc_col_defined 2) by lia. cbn [result_bind].
  rewrite first_valid_index_none; [reflexivity|].
  apply Forall_map. exact Hnull.
Qed.

Lemma inoctime_without_reference_witness :
  inoctime Instances.iso_datetime
    {| columns := ["Timestamp"; "Duration []"; "InoculationTime []"]%string;
       rows := [ [Str "2021-03-01 09:00:00"; Str "0"; NaN];
                 [Str "2021-03-01 10:00:00"; Str "1"; NaN] ] |}
    None
  = Raise TypeError.
Proof.
  apply inoctime_without_reference.
  - simpl. lia.
  - repeat constructor.
Defined.

(** X14. With an explicit inoculation instant the third column is not
    looked at: the differences fitting in 64 bits, every row gets its
    timestamp minus that instant, on a table of any number of columns from
    one. *)
Theorem inoctime_explicit_instant :
  forall (to_datetime : string -> result Z) (cdf : DataFrame)
         (itime : string) (r : Z) (times : list (option Z)),
    1 <= List.length (columns cdf) ->
    to_datetime itime = Ok r ->
    mapM (to_datetime_value to_datetime) (map (cell 0) (rows cdf)) = Ok times ->
    (forall t, In (Some t) times -> int64 (t - r) = true) ->
    exists deltas,
      inoctime to_datetime cdf (Some (Str itime)) = Ok deltas
      /\ List.length deltas = List.length (rows cdf)
      /\ forall i t, nth_error times i = Some (Some t) ->
                     nth_error deltas i = Some (Timedelta (t - r)).
Proof.
  intros td cdf itime r times Hcols Hr Htimes Hfits.
  assert (E : inoctime td cdf (Some (Str itime))
              = Ok (map (timedelta (Some r)) times)).
  { unfold inoctime. cbn [result_bind to_datetime_value]. rewrite Hr.
    cbn [result_bind]. rewrite (iloc_col_defined 0) by lia.
    cbn [result_bind]. rewrite Htimes. cbn [result_bind].
    apply sub_timestamp_fits. intros t r' Ht Hr'. injection Hr' as <-.
    now apply Hfits. }
  eexists. split; [exact E|]. split.
  - exact (inoctime_length _ _ _ _ E).
  - intros i t Hi. rewrite nth_error_map, Hi. reflexivity.
Qed.

Lemma inoctime_explicit_instant_witness :
  exists deltas,
    inoctime Instances.iso_datetime
      {| columns := ["Timestamp"%string];
         rows := [ [Str "2021-03-01 09:00:00"]; [Str "2021-03-01 11:30:00"] ] |}
      (Some (Str "2021-03-01 10:00:00")) = Ok deltas
    /\ List.length deltas = 2
    /\ forall i t,
         nth_error [Some 1614589200000000000; Some 1614598200000000000]%Z i
         = Some (Some t) ->
         nth_error deltas i = Some (Timedelta (t - 1614592800000000000)).
Proof.
  apply (inoctime_explicit_instant Instances.iso_datetime
           {| columns := ["Timestamp"%string];
              rows := [ [Str "2021-03-01 09:00:00"];
                        [Str "2021-03-01 11:30:00"] ] |}
           "2021-03-01 10:00:00" 1614592800000000000%Z
           [Some 1614589200000000000; Some 1614598200000000000]%Z).
  - simpl. lia.
  - vm_compute. reflexivity.
  - vm_compute. reflexivity.
  - intros t [E | [E | []]]; injection E as <-; reflexivity.
Defined.

(** ** Reactor Merge Engine: what the merged tables hold *)

Lemma filter_orb_length {A} (p q : A -> bool) (l : list A) :
  List.length (filter (fun x => p x || q x) l)
  <= List.length (filter p l) + List.length (filter q l).
Proof.
  induction l as [|a l IH]; simpl; [lia|].
  destruct (p a), (q a); simpl; lia.
Qed.

Lemma filter_split_length {A} (p : A -> bool) (l : list A) :
  List.length l
  = List.length (filter p l) + List.length (filter (fun x => negb (p x)) l).
Proof.
  induction l as [|a l IH]; simpl; [reflexivity|].
  destruct (p a); simpl; lia.
Qed.

Lemma matched_right_rows_le (kl kr : nat) (left right : list (list value)) :
  List.length
    (filter (fun r => existsb (fun l => Merge.key_eqb (cell kl l) (cell kr r)) left)
            right)
  <= List.length
       (flat_map (fun l => Merge.matches kl kr l right) left).
Proof.
  induction left as [|l left IH]; simpl.
  - induction right as [|r right IHr]; simpl; [lia|exact IHr].
  - rewrite length_app.
    pose proof (filter_orb_length
                  (fun r => Merge.key_eqb (cell kl l) (cell kr r))
                  (fun r => existsb (fun l0 => Merge.key_eqb (cell kl l0) (cell kr r))
                                    left)
                  right) as Ho.
    unfold Merge.matches at 1. lia.
Qed.

Lemma left_rows_total (nl nr kl kr : nat) (left right : list (list value)) :
  List.length left
  <= List.length (flat_map (Merge.left_rows nl nr kl kr right) left)
  /\ List.length (flat_map (fun l => Merge.matches kl kr l right) left)
     <= List.length (flat_map (Merge.left_rows nl nr kl kr right) left).
Proof.
  induction left as [|l left [IH1 IH2]]; simpl; [lia|].
  rewrite !length_app, left_rows_length. lia.
Qed.

(** The outer join keeps every row of both tables. *)
Lemma merge_ordered_keeps_rows (left right : DataFrame) (on : string)
  (t : DataFrame) :
  Merge.merge_ordered left right on = Ok t ->
  List.length (rows left) <= List.length (rows t)
  /\ List.length (rows right) <= List.length (rows t).
Proof.
  unfold Merge.merge_ordered.
  destruct (column_index on left) as [kl|]; [|discriminate].
  destruct (column_index on right) as [kr|]; [|discriminate].
  intros H. injection H as <-. cbn [rows].
  rewrite sort_length, length_app, length_map.
  set (nl := List.length (columns left)). set (nr := List.length (columns right)).
  destruct (left_rows_total nl nr kl kr (rows left) (rows right)) as [H1 H2].
  split; [lia|].
  pose proof (matched_right_rows_le kl kr (rows left) (rows right)) as H3.
  rewrite (filter_split_length
             (fun r => existsb (fun l => Merge.key_eqb (cell kl l) (cell kr r))
                               (rows left))
             (rows right)).
  unfold Merge.right_only. lia.
Qed.

Lemma int_of_char_bound (s : string) (n : nat) : int_of_char s = Ok n -> n <= 9.
Proof.
  destruct s as [|c [|? ?]]; try discriminate. simpl.
  destruct (Py.isdigit c) eqn:E; [|discriminate].
  intros H. injection H as <-. unfold Py.isdigit in E.
  apply andb_prop in E as [_ E]. apply Nat.leb_le in E. lia.
Qed.

Lemma in_set_int {V} (d : list (nat * V)) (k : nat) (v : V) (x : nat * V) :
  In x (set_int d k v) -> x = (k, v) \/ In x d.
Proof.
  induction d as [|[k0 v0] d IH]; simpl.
  - intros [<- | []]. now left.
  - destruct (Nat.eqb k k0) eqn:E; simpl.
    + apply Nat.eqb_eq in E. subst k0. intros [<- | H]; auto.
    + intros [<- | H]; auto. destruct (IH H); auto.
Qed.

Lemma set_int_in {V} (d : list (nat * V)) (k : nat) (v : V) :
  In (k, v) (set_int d k v).
Proof.
  induction d as [|[k0 v0] d IH]; simpl; [now left|].
  destruct (Nat.eqb k k0) eqn:E; simpl.
  - apply Nat.eqb_eq in E. subst k0. now left.
  - now right.
Qed.

Lemma set_int_NoDup {V} (d : list (nat * V)) (k : nat) (v : V) :
  NoDup (map fst d) -> NoDup (map fst (set_int d k v)).
Proof.
  induction d as [|[k0 v0] d IH]; simpl; intros H.
  - repeat constructor. intros [].
  - inversion H as [|? ? Hnotin Hnd]; subst.
    destruct (Nat.eqb k k0) eqn:E; simpl.
    + constructor; assumption.
    + constructor; [|now apply IH].
      intros Hin. apply in_map_iff in Hin. destruct Hin as [[k1 v1] [Hk Hin]].
      simpl in Hk. subst k1. apply in_set_int in Hin as [Heq | Hin].
      * injection Heq as -> _. now rewrite Nat.eqb_refl in E.
      * apply Hnotin. change k0 with (fst (k0, v1)). now apply in_map.
Qed.

(** One iteration over the reactors, read backwards. *)
Lemma merge_reactor_inv (td : string -> result Z) (strict : bool)
  (events_df : DataFrame) (d d' : list (nat * DataFrame))
  (reactor_name : string) (reactor_data : DataFrame) :
  merge_reactor td strict events_df d (reactor_name, reactor_data) = Ok d' ->
  exists reactor_num reference n cdf,
    Py.last_char reactor_name = Ok reactor_num
    /\ getcol "Reference" events_df = Ok reference
    /\ reactor_number reactor_name = Ok n
    /\ d' = set_int d n cdf
    /\ List.length (rows reactor_data) <= List.length (rows cdf)
    /\ List.length
         (rows (select_rows (fltr_reactor_events strict reactor_num reference)
                            events_df))
       <= List.length (rows cdf).
Proof.
  unfold merge_reactor, reactor_number. intros H.
  destruct (Py.last_char reactor_name) as [num|]; [|discriminate].
  cbn [result_bind] in *.
  destruct (getcol "Reference" events_df) as [reference|]; [|discriminate].
  cbn [result_bind] in H.
  destruct (str_accessor reference) as [[]|]; [|discriminate].
  cbn [result_bind] in H.
  destruct (Merge.merge_ordered _ _ _) as [merged|] eqn:Em; [|discriminate].
  cbn [result_bind] in H.
  destruct (inoctime td merged None) as [ino|] eqn:Ei; [|discriminate].
  cbn [result_bind] in H.
  destruct (int_of_char num) as [n|] eqn:En; [|discriminate].
  cbn [result_bind] in H. injection H as <-.
  exists num, reference, n, (setcol "InoculationTime []" ino merged).
  repeat split; trivial.
  - rewrite setcol_rows_length by (now apply inoctime_length in Ei).
    now apply merge_ordered_keeps_rows in Em.
  - rewrite setcol_rows_length by (now apply inoctime_length in Ei).
    now apply merge_ordered_keeps_rows in Em.
Qed.

(** X15. The table stored for a reactor has at least as many rows as the
    reactor's section and at least as many as the events selected for it:
    the merge drops no sample and no selected event. *)
Theorem merged_table_keeps_rows :
  forall (to_datetime : string -> result Z) (strict : bool)
         (events_df : DataFrame) (d d' : list (nat * DataFrame))
         (reactor_name : string) (reactor_data : DataFrame),
    merge_reactor to_datetime strict events_df d (reactor_name, reactor_data)
    = Ok d' ->
    exists reactor_num reference n cdf,
      Py.last_char reactor_name = Ok reactor_num
      /\ getcol "Reference" events_df = Ok reference
      /\ In (n, cdf) d'
      /\ List.length (rows reactor_data) <= List.length (rows cdf)
      /\ List.length
           (rows (select_rows (fltr_reactor_events strict reactor_num reference)
                              events_df))
         <= List.length (rows cdf).
Proof.
  intros td strict events_df d d' name data H.
  destruct (merge_reactor_inv _ _ _ _ _ _ _ H)
    as (num & reference & n & cdf & H1 & H2 & _ & -> & H4 & H5).
  exists num, reference, n, cdf. repeat split; trivial. apply set_int_in.
Qed.

Lemma merge_reactors_keys (td : string -> result Z) (strict : bool)
  (events_df : DataFrame) (cdf_dict : Py.dict DataFrame) :
  forall d d',
    merge_reactors td strict events_df d cdf_dict = Ok d' ->
    NoDup (map fst d) /\ (forall k, In k (map fst d) -> k <= 9) ->
    NoDup (map fst d') /\ (forall k, In k (map fst d') -> k <= 9).
Proof.
  induction cdf_dict as [|[name data] rest IH]; intros d d' H Hd.
  - cbn [merge_reactors] in H. now injection H as <-.
  - cbn [merge_reactors] in H.
    destruct (merge_reactor td strict events_df d (name, data)) as [d1|] eqn:E1;
      [|discriminate].
    cbn [result_bind] in H. apply (IH d1 d' H).
    destruct (merge_reactor_inv _ _ _ _ _ _ _ E1)
      as (num & reference & n & cdf & _ & _ & Hn & -> & _).
    destruct Hd as [Hnd Hle]. split; [now apply set_int_NoDup|].
    intros k Hk. apply in_map_iff in Hk. destruct Hk as [[k1 v1] [Hk Hin]].
    simpl in Hk. subst k1. apply in_set_int in Hin as [Heq | Hin].
    + injection Heq as -> _. unfold reactor_number in Hn.
      destruct (Py.last_char name); [|discriminate].
      now apply int_of_char_bound in Hn.
    + apply Hle. change k with (fst (k, v1)). now apply in_map.
Qed.

(** X16. The dict [convert_dasdict_2_cdf_dict] returns is keyed by reactor
    numbers from 0 to 9, none of them twice. *)
Theorem cdf_dict_keys :
  forall (astype_float : string -> result spec_float)
         (to_datetime : string -> result Z)
         (dasdict : Py.dict DataFrame) (strict : bool)
         (cdf_dict : list (nat * DataFrame)),
    convert_dasdict_2_cdf_dict astype_float to_datetime dasdict strict
    = Ok cdf_dict ->
    NoDup (map fst cdf_dict) /\ forall k, In k (map fst cdf_dict) -> k <= 9.
Proof.
  intros af td dasdict strict cdf_dict H.
  unfold convert_dasdict_2_cdf_dict in H.
  destruct (Py.subscript dasdict "Events") as [events|]; [|discriminate].
  cbn [result_bind] in H.
  destruct (h_extract_volume_changes af events) as [events_df|]; [|discriminate].
  cbn [result_bind] in H.
  apply (merge_reactors_keys _ _ _ _ _ _ H).
  split; [constructor|intros k []].
Qed.

Lemma merged_table_keeps_rows_witness :
  exists reactor_num reference n cdf,
    Py.last_char "TrackData1" = Ok reactor_num
    /\ getcol "Reference" Examples.events_extracted = Ok reference
    /\ In (n, cdf) Examples.cdf_dict_strict
    /\ List.length (rows Examples.reactor) <= List.length (rows cdf)
    /\ List.length
         (rows (select_rows (fltr_reactor_events true reactor_num reference)
                            Examples.events_extracted))
       <= List.length (rows cdf).
Proof.
  apply (merged_table_keeps_rows Instances.iso_datetime true
           Examples.events_extracted [] Examples.cdf_dict_strict
           "TrackData1" Examples.reactor).
  vm_compute. reflexivity.
Defined.

Lemma cdf_dict_keys_witness :
  NoDup (map fst Examples.cdf_dict_strict)
  /\ forall k, In k (map fst Examples.cdf_dict_strict) -> k <= 9.
Proof.
  apply (cdf_dict_keys Instances.decimal_float Instances.iso_datetime
           Examples.dasdict true Examples.cdf_dict_strict).
  vm_compute. reflexivity.
Defined.

(** X17. A dict with an [Events] section and no section whose name starts
    with [TrackData] gives the empty dict, provided the events can be
    extracted: nothing is merged and nothing raised. *)
Theorem no_reactor_section_gives_empty_dict :
  forall (astype_float : string -> result spec_float)
         (to_datetime : string -> result Z)
         (dasdict : Py.dict DataFrame) (strict : bool)
         (events events_df : DataFrame),
    (forall name df, In (name, df) dasdict ->
                     Py.startswith "TrackData" name = false) ->
    Py.get dasdict "Events" = Some events ->
    h_extract_volume_changes astype_float events = Ok events_df ->
    convert_dasdict_2_cdf_dict astype_float to_datetime dasdict strict = Ok [].
Proof.
  intros af td dasdict strict events events_df Hno He Hx.
  unfold convert_dasdict_2_cdf_dict, Py.subscript.
  rewrite He. cbn [result_bind]. rewrite Hx. cbn [result_bind].
  rewrite filter_none; [reflexivity|].
  intros [name df] Hin. simpl. now apply (Hno name df).
Qed.

Lemma no_reactor_section_gives_empty_dict_witness :
  convert_dasdict_2_cdf_dict Instances.decimal_float Instances.iso_datetime
    [ ("Device"%string, Examples.name_value "D" "1");
      ("Events"%string, Examples.events) ] false
  = Ok [].
Proof.
  apply (no_reactor_section_gives_empty_dict Instances.decimal_float
           Instances.iso_datetime _ false Examples.events
           Examples.events_extracted).
  - intros name df [E | [E | []]]; injection E as <- _; reflexivity.
  - reflexivity.
  - vm_compute. reflexivity.
Defined.

Lemma merge_reactor_bad_number (td : string -> result Z) (strict : bool)
  (events_df : DataFrame) (d : list (nat * DataFrame))
  (reactor_name : string) (reactor_data : DataFrame) (e : exn) :
  reactor_number reactor_name = Raise e ->
  exists e', merge_reactor td strict events_df d (reactor_name, reactor_data)
             = Raise e'.
Proof.
  unfold reactor_number, merge_reactor. intros H.
  destruct (Py.last_char reactor_name) as [num|]; cbn [result_bind] in *;
    [|eauto].
  destruct (getcol "Reference" events_df) as [reference|];
    cbn [result_bind]; [|eauto].
  destruct (str_accessor reference); cbn [result_bind]; [|eauto].
  destruct (Merge.merge_ordered _ _ _); cbn [result_bind]; [|eauto].
  destruct (inoctime td _ None); cbn [result_bind]; [|eauto].
  rewrite H. cbn [result_bind]. eauto.
Qed.

Lemma merge_reactors_bad_number (td : string -> result Z) (strict : bool)
  (events_df : DataFrame) (cdf_dict : Py.dict DataFrame)
  (reactor_name : string) (reactor_data : DataFrame) (e : exn) :
  In (reactor_name, reactor_data) cdf_dict ->
  reactor_number reactor_name = Raise e ->
  forall d, exists e', merge_reactors td strict events_df d cdf_dict = Raise e'.
Proof.
  intros Hin Hn. induction cdf_dict as [|r rest IH]; intros d; [contradiction|].
  cbn [merge_reactors].
  destruct Hin as [-> | Hin].
  - destruct (merge_reactor_bad_number td strict events_df d _ reactor_data e Hn)
      as [e' ->].
    cbn [result_bind]. eauto.
  - destruct (merge_reactor td strict events_df d r) as [d1|];
      cbn [result_bind]; [|eauto].
    apply (IH Hin).
Qed.

(** X18. A section whose name starts with [TrackData] and does not end in
    a decimal digit makes [convert_dasdict_2_cdf_dict] raise, whatever else
    the dict holds: no table is returned for the other reactors either. *)
Theorem reactor_name_without_number_fails :
  forall (astype_float : string -> result spec_float)
         (to_datetime : string -> result Z)
         (dasdict : Py.dict DataFrame) (strict : bool)
         (reactor_name : string) (reactor_data : DataFrame) (e : exn),
    In (reactor_name, reactor_data) dasdict ->
    Py.startswith "TrackData" reactor_name = true ->
    reactor_number reactor_name = Raise e ->
    exists e',
      convert_dasdict_2_cdf_dict astype_float to_datetime dasdict strict
      = Raise e'.
Proof.
  intros af td dasdict strict name data e Hin Hs Hn.
  unfold convert_dasdict_2_cdf_dict.
  destruct (Py.subscript dasdict "Events"); cbn [result_bind]; [|eauto].
  destruct (h_extract_volume_changes af _); cbn [result_bind]; [|eauto].
  apply (merge_reactors_bad_number td strict _ _ name data e); [|exact Hn].
  apply filter_In. split; [exact Hin|exact Hs].
Qed.

Lemma reactor_name_without_number_fails_witness :
  exists e',
    convert_dasdict_2_cdf_dict Instances.decimal_float Instances.iso_datetime
      [ ("TrackData1"%string, Examples.reactor);
        ("TrackDataA"%string, Examples.reactor);
        ("Events"%string, Examples.events) ] true
    = Raise e'.
Proof.
  apply (reactor_name_without_number_fails Instances.decimal_float
           Instances.iso_datetime _ true "TrackDataA" Examples.reactor
           ValueError).
  - right. left. reflexivity.
  - reflexivity.
  - reflexivity.
Defined.

(** ** The whole extraction *)

(** X19. On an archive without a member whose name contains [Control.csv],
    [extract] raises the [IndexError] of the archive reader; no section is
    split and nothing is merged. *)
Theorem extract_without_control_file :
  forall (decode : string -> result string)
         (astype_float : string -> result spec_float)
         (to_datetime : string -> result Z) (daszip : ZipFile),
    (forall m, In m daszip -> Py.contains "Control.csv" (member_name m) = false) ->
    extract decode astype_float to_datetime daszip = ([], Raise IndexError).
Proof.
  intros decode af td daszip H. unfold extract, read_daszip.
  rewrite filter_none; [reflexivity|].
  intros name Hin. unfold namelist in Hin. apply in_map_iff in Hin.
  destruct Hin as [m [<- Hm]]. now apply H.
Qed.

Lemma extract_without_control_file_witness :
  extract (fun b => Ok b) Instances.decimal_float Instances.iso_datetime
    [ {| member_name := "Data.csv"; member_data := "x" |} ]
  = ([], Raise IndexError).
Proof.
  apply extract_without_control_file.
  intros m [<- | []]. reflexivity.
Defined.

Lemma stored_name_not_events (risk : bool) (section : string) :
  raw_name section <> "Events"%string ->
  String.eqb "Events" (stored_name risk section) = false.
Proof.
  intros H. unfold stored_name.
  destruct (is_setup (raw_name section) && risk) eqn:E.
  - apply andb_prop in E as [E _]. unfold is_setup in E.
    apply andb_prop in E as [E _].
    destruct (drop_last_of_setup _ E) as [t ->]. reflexivity.
  - apply String.eqb_neq. congruence.
Qed.

Lemma convert_sections_no_events (sections : list string) :
  forall st w st',
    Forall (fun section => raw_name section <> "Events"%string) sections ->
    Py.get (sections_dict st) "Events" = None ->
    convert_sections st sections = (w, Ok st') ->
    Py.get (sections_dict st') "Events" = None.
Proof.
  induction sections as [|s rest IH]; intros st w st' Hs Hst H.
  - simpl in H. injection H as _ <-. exact Hst.
  - inversion Hs as [|? ? Hs1 Hs2]; subst.
    simpl in H. destruct (process_section st s) as [w1 [st1|e]] eqn:Ep;
      [|discriminate].
    cbn [bind] in H.
    destruct (convert_sections st1 rest) as [w2 r2] eqn:Ec.
    injection H as _ ->.
    apply (IH st1 w2 st' Hs2); [|exact Ec].
    destruct (process_section_dict _ _ _ _ Ep) as [-> | [df ->]];
      [exact Hst|].
    rewrite get_set_other; [exact Hst|].
    now apply stored_name_not_events.
Qed.

(** X20. When the text is read and split without an exception and no
    section of it is named [Events], [extract] raises the [KeyError] of the
    merge engine, after the warnings of the two first stages. *)
Theorem extract_without_events_section :
  forall (decode : string -> result string)
         (astype_float : string -> result spec_float)
         (to_datetime : string -> result Z) (daszip : ZipFile)
         (w1 w2 : list string) (internal_file : string)
         (dasdict : Py.dict DataFrame),
    read_daszip daszip "Control.csv" decode = (w1, Ok internal_file) ->
    convert_daszip_2_dasdict internal_file = (w2, Ok dasdict) ->
    Forall (fun section => raw_name section <> "Events"%string)
           (Py.split (Py.CRLF @@ Py.CRLF) internal_file) ->
    extract decode astype_float to_datetime daszip = (w1 ++ w2, Raise KeyError).
Proof.
  intros decode af td daszip w1 w2 text dasdict Hr Hc Hs.
  assert (Hg : Py.get dasdict "Events" = None).
  { unfold convert_daszip_2_dasdict in Hc.
    destruct (convert_sections _ _) as [w [st|e]] eqn:Ec; [|discriminate].
    cbn [bind ret] in Hc. injection Hc as _ <-.
    apply (convert_sections_no_events _ _ _ _ Hs) with (2 := Ec).
    reflexivity. }
  unfold extract. rewrite Hr. cbn [bind]. rewrite Hc. cbn [bind lift].
  unfold convert_dasdict_2_cdf_dict, Py.subscript. rewrite Hg.
  cbn [result_bind]. now rewrite app_nil_r.
Qed.

Lemma extract_without_events_section_witness :
  extract (fun b => Ok b) Instances.decimal_float Instances.iso_datetime
    [ {| member_name := "run/Control.csv"; member_data := Examples.two_setups |} ]
  = ([] ++ [], Raise KeyError).
Proof.
  apply (extract_without_events_section (fun b => Ok b) Instances.decimal_float
           Instances.iso_datetime _ [] [] Examples.two_setups
           [ ("Setup1"%string, Examples.name_value "A" "1");
             ("Device"%string, Examples.name_value "D" "2");
             ("Profiles"%string, Examples.name_value "P" "2");
             ("Setup2"%string, Examples.name_value "B" "2") ]).
  - vm_compute. reflexivity.
  - vm_compute. reflexivity.
  - vm_compute. repeat constructor; discriminate.
Defined.

(** ** Export *)

(** X21. With a format that is neither [csv] nor [xlsx], [export_all]
    prints its message and returns: no archive is read, nothing is written
    and nothing is raised, whatever the archives are. *)
Theorem export_all_rejects_format :
  forall (decode : string -> result string)
         (astype_float : string -> result spec_float)
         (to_datetime : string -> result Z)
         (export_cdf_dict_2_excel : list (nat * DataFrame) -> string -> IO unit)
         (export_format : string) (daszip_list : list (string * ZipFile)),
    export_format <> "csv"%string ->
    export_format <> "xlsx"%string ->
    exists msg,
      export_all decode astype_float to_datetime export_cdf_dict_2_excel
                 export_format daszip_list
      = ([Printed msg], Ok tt)
      /\ csv_files (fst (export_all decode astype_float to_datetime
                                    export_cdf_dict_2_excel
                                    export_format daszip_list)) = [].
Proof.
  intros decode af td xl fmt l Hc Hx. unfold export_all.
  apply String.eqb_neq in Hc, Hx. cbn [existsb]. rewrite Hc, Hx.
  cbn [orb negb]. eexists. split; reflexivity.
Qed.

Lemma export_all_rejects_format_witness :
  exists msg,
    export_all (fun b => Ok b) Instances.decimal_float Instances.iso_datetime
               (fun _ _ => io_ret tt) "pdf"
               [("run1.zip"%string, [])]
    = ([Printed msg], Ok tt)
    /\ csv_files (fst (export_all (fun b => Ok b) Instances.decimal_float
                                  Instances.iso_datetime (fun _ _ => io_ret tt)
                                  "pdf" [("run1.zip"%string, [])])) = [].
Proof.
  apply export_all_rejects_format; discriminate.
Defined.

Lemma of_nat_inj (a b : nat) : Py.of_nat a = Py.of_nat b -> a = b.
Proof.
  unfold Py.of_nat. intros H.
  apply (f_equal NilEmpty.uint_of_string) in H.
  rewrite !NilEmpty.usu in H. injection H as H.
  now apply DecimalNat.Unsigned.to_uint_inj.
Qed.

Lemma append_inj_l (p a b : string) : p @@ a = p @@ b -> a = b.
Proof.
  induction p as [|c p IH]; simpl; intros H; [exact H|].
  injection H as H. now apply IH.
Qed.

Lemma chars_append (a b : string) :
  Py.chars (a @@ b) = Py.chars a ++ Py.chars b.
Proof.
  unfold Py.chars. induction a as [|c a IH]; simpl; [reflexivity|].
  now rewrite IH.
Qed.

Lemma append_inj_r (a b s : string) : a @@ s = b @@ s -> a = b.
Proof.
  intros H. apply (f_equal Py.chars) in H. rewrite !chars_append in H.
  apply app_inv_tail in H. apply (f_equal Py.str) in H.
  now rewrite !str_chars in H.
Qed.

Lemma csv_path_inj (export_name : string) (k k' : nat) :
  export_name @@ "-" @@ Py.of_nat k @@ ".csv"
  = export_name @@ "-" @@ Py.of_nat k' @@ ".csv" ->
  k = k'.
Proof.
  intros H. apply append_inj_l in H. apply (append_inj_l "-") in H.
  apply append_inj_r in H. now apply of_nat_inj.
Qed.

Lemma export_cdf_dict_2_csv_files (cdf_dict : list (nat * DataFrame))
  (export_name : string) :
  snd (export_cdf_dict_2_csv cdf_dict export_name) = Ok tt
  /\ csv_files (fst (export_cdf_dict_2_csv cdf_dict export_name))
     = map (fun kv => (export_name @@ "-" @@ Py.of_nat (fst kv) @@ ".csv", snd kv))
           cdf_dict.
Proof.
  induction cdf_dict as [|[k cdf] rest [IH1 IH2]]; [split; reflexivity|].
  cbn [export_cdf_dict_2_csv].
  destruct (export_cdf_dict_2_csv rest export_name) as [t r].
  cbn [fst snd] in IH1, IH2. subst r. unfold csv_files in *.
  cbn [emit io_bind fst snd app flat_map map].
  split; [reflexivity|]. now rewrite IH2.
Qed.

(** X22. [export_cdf_dict_2_csv] writes one file per entry of the dict, in
    order, named [<export_name>-<key>.csv] and holding the table of that
    key, and raises nothing; when no key occurs twice, no two files have the
    same name, so no table is written over another. *)
Theorem export_cdf_dict_2_csv_one_file_per_reactor :
  forall (cdf_dict : list (nat * DataFrame)) (export_name : string),
    NoDup (map fst cdf_dict) ->
    snd (export_cdf_dict_2_csv cdf_dict export_name) = Ok tt
    /\ csv_files (fst (export_cdf_dict_2_csv cdf_dict export_name))
       = map (fun kv => (export_name @@ "-" @@ Py.of_nat (fst kv) @@ ".csv",
                         snd kv))
             cdf_dict
    /\ NoDup (map fst (csv_files
                         (fst (export_cdf_dict_2_csv cdf_dict export_name)))).
Proof.
  intros cdf_dict export_name Hnd.
  destruct (export_cdf_dict_2_csv_files cdf_dict export_name) as [H1 H2].
  split; [exact H1|]. split; [exact H2|].
  rewrite H2, map_map. cbn [fst].
  clear H1 H2. induction cdf_dict as [|[k cdf] rest IH]; [constructor|].
  simpl in Hnd. inversion Hnd as [|? ? Hnotin Hnd']; subst.
  simpl. constructor; [|now apply IH].
  intros Hin. apply in_map_iff in Hin. destruct Hin as [[k' cdf'] [Heq Hin]].
  simpl in Heq. apply csv_path_inj in Heq. subst k'.
  apply Hnotin. change k with (fst (k, cdf')). now apply in_map.
Qed.

Lemma export_cdf_dict_2_csv_one_file_per_reactor_witness :
  snd (export_cdf_dict_2_csv Examples.cdf_dict_strict "run1") = Ok tt
  /\ csv_files (fst (export_cdf_dict_2_csv Examples.cdf_dict_strict "run1"))
     = map (fun kv => ("run1" @@ "-" @@ Py.of_nat (fst kv) @@ ".csv", snd kv))
           Examples.cdf_dict_strict
  /\ NoDup (map fst (csv_files
                       (fst (export_cdf_dict_2_csv Examples.cdf_dict_strict
                                                   "run1")))).
Proof.
  apply (export_cdf_dict_2_csv_one_file_per_reactor Examples.cdf_dict_strict
           "run1").
  vm_compute. repeat constructor. intros [].
Defined.

Lemma io_bind_ok {A B} (m : IO A) (f : A -> IO B) (t : list event) (b : B) :
  io_bind m f = (t, Ok b) ->
  exists ta a tb, m = (ta, Ok a) /\ f a = (tb, Ok b) /\ t = ta ++ tb.
Proof.
  destruct m as [ta [a|e]]; simpl; [|discriminate].
  destruct (f a) as [tb r] eqn:Ef. intros H. injection H as <- ->.
  exists ta, a, tb. auto.
Qed.

Section Batch.

Variable decode : string -> result string.
Variable astype_float : string -> result spec_float.
Variable to_datetime : string -> result Z.
Variable export_cdf_dict_2_excel : list (nat * DataFrame) -> string -> IO unit.

Lemma export_one_failing (export_format : string) (daszip : string * ZipFile)
  (e : exn) :
  snd (extract decode astype_float to_datetime (snd daszip)) = Raise e ->
  export_one decode astype_float to_datetime export_cdf_dict_2_excel
             export_format daszip
  = (map Warned (fst (extract decode astype_float to_datetime (snd daszip))),
     Raise e).
Proof.
  intros H. unfold export_one, of_M. rewrite H. reflexivity.
Qed.

Lemma export_each_failing (export_format : string)
  (before after : list (string * ZipFile)) (daszip : string * ZipFile)
  (e : exn) :
  snd (extract decode astype_float to_datetime (snd daszip)) = Raise e ->
  forall t,
    export_each decode astype_float to_datetime export_cdf_dict_2_excel
                export_format before = (t, Ok tt) ->
    export_each decode astype_float to_datetime export_cdf_dict_2_excel
                export_format (before ++ daszip :: after)
    = (t ++ map Warned
              (fst (extract decode astype_float to_datetime (snd daszip))),
       Raise e).
Proof.
  intros He. induction before as [|x before IH]; intros t H.
  - simpl in H. injection H as <-. cbn [app export_each].
    rewrite (export_one_failing _ _ e He). reflexivity.
  - cbn [app export_each] in *.
    apply io_bind_ok in H. destruct H as (ta & [] & tb & Hx & Hb & ->).
    rewrite Hx. cbn [io_bind]. rewrite (IH tb Hb). now rewrite app_assoc.
Qed.

End Batch.

(** X23. An archive that cannot be extracted stops the run: when the
    archives before it are exported without an exception, [export_all] ends
    with the exception of that archive, its trace is the count of archives,
    what the earlier archives left and the warnings of the failing one, and
    the archives after it are neither read nor exported. *)
Theorem failing_archive_stops_export :
  forall (decode : string -> result string)
         (astype_float : string -> result spec_float)
         (to_datetime : string -> result Z)
         (export_cdf_dict_2_excel : list (nat * DataFrame) -> string -> IO unit)
         (export_format : string)
         (before after : list (string * ZipFile)) (daszip : string * ZipFile)
         (e : exn) (t : list event),
    existsb (String.eqb export_format) ["csv"; "xlsx"]%string = true ->
    export_each decode astype_float to_datetime export_cdf_dict_2_excel
                export_format before = (t, Ok tt) ->
    snd (extract decode astype_float to_datetime (snd daszip)) = Raise e ->
    export_all decode astype_float to_datetime export_cdf_dict_2_excel
               export_format (before ++ daszip :: after)
    = (Logged "INFO"
         (Py.of_nat (List.length (before ++ daszip :: after))
          @@ " dasgip zip files have been found. Proceeding to extraction.")
       :: t ++ map Warned
                 (fst (extract decode astype_float to_datetime (snd daszip))),
       Raise e).
Proof.
  intros decode af td xl fmt before after daszip e t Hfmt Hb He.
  unfold export_all. rewrite Hfmt. cbn [negb emit io_bind].
  rewrite (export_each_failing decode af td xl fmt before after daszip e He t Hb).
  reflexivity.
Qed.

Lemma failing_archive_stops_export_witness :
  export_all (fun b => Ok b) Instances.decimal_float Instances.iso_datetime
             (fun _ _ => io_ret tt) "csv"
             ([("run1.zip"%string, Runs.archive)]
              ++ ("bad.zip"%string, []) :: [("run2.zip"%string, Runs.archive)])
  = (Logged "INFO"
       (Py.of_nat (List.length
                     ([("run1.zip"%string, Runs.archive)]
                      ++ ("bad.zip"%string, [])
                      :: [("run2.zip"%string, Runs.archive)]))
        @@ " dasgip zip files have been found. Proceeding to extraction.")
     :: Runs.archive_trace
        ++ map Warned
             (fst (extract (fun b => Ok b) Instances.decimal_float
                           Instances.iso_datetime
                           (snd ("bad.zip"%string, @nil ZipMember)))),
     Raise IndexError).
Proof.
  apply (failing_archive_stops_export (fun b => Ok b) Instances.decimal_float
           Instances.iso_datetime (fun _ _ => io_ret tt) "csv"
           [("run1.zip"%string, Runs.archive)]
           [("run2.zip"%string, Runs.archive)]
           ("bad.zip"%string, []) IndexError Runs.archive_trace).
  - reflexivity.
  - vm_compute. reflexivity.
  - reflexivity.
Defined.

(** The run of the archive [Runs.archive]: one csv file, named after the
    archive and the reactor, whose [InoculationTime []] column is zero at the
    row of the first inoculation mark and negative before it. *)
Example archive_run :
  csv_files Runs.archive_trace
  = [ ("run1-1.csv"%string,
       {| columns :=
            ["Timestamp"; "Duration []"; "InoculationTime []"; "Reference";
             "Description"; "Vol_added"; "Liquid_added"; "Vol_removed";
             "Feed_pump"; "Feed_balance"]%string;
          rows :=
            [ [Str "2021-03-01 09:00:00"; Str "0"; Timedelta (-3600000000000);
               NaN; NaN; NaN; NaN; NaN; NaN; NaN];
              [Str "2021-03-01 10:00:00"; Str "1"; Timedelta 0;
               Str "Unit 1"; Str "Added volume 5.00 mL to vessel";
               Float (S754_finite false 5629499534213120 (-50));
               NaN; NaN; PyNone; PyNone] ] |}) ].
Proof. reflexivity. Qed.

(** ** Section Splitter: a repaired reactor section *)

(** X24. The column names of a [TrackData] section are normalized on the
    regular path only: when the parser raises [ParserError] and the section
    is repaired by [h_parse_irregular_csv], the repaired table is stored as
    it is, under the section's name, its columns keeping the spelling of the
    text. *)
Theorem repaired_section_is_not_normalized :
  forall (st : splitter_state) (section : string) (df : DataFrame),
    Pandas.read_csv (Py.join (String Py.LF EmptyString) (section_body section))
    = Raise ParserError ->
    h_parse_irregular_csv (section_body section) = Ok df ->
    exists w st',
      process_section st section = (w, Ok st')
      /\ Py.get (sections_dict st')
                (stored_name (overwriting_risk st) section) = Some df.
Proof.
  intros st section df Hr Hp. rewrite process_section_eq. cbv zeta.
  rewrite Hr, Hp. eexists. eexists. split; [reflexivity|].
  cbn [sections_dict]. apply get_set_same.
Qed.

Lemma repaired_section_is_not_normalized_witness :
  exists w st',
    process_section {| overwriting_risk := false; sections_dict := [] |}
      (Py.join Py.CRLF
         ["[TrackData1]"; "Timestamp;Unit 1.pH1.PV [pH]";
          "2021-03-01 09:00:00;7.0"; "2021-03-01 10:00:00;7.1;x"]%string)
    = (w, Ok st')
    /\ Py.get (sections_dict st')
              (stored_name false
                 (Py.join Py.CRLF
                    ["[TrackData1]"; "Timestamp;Unit 1.pH1.PV [pH]";
                     "2021-03-01 09:00:00;7.0";
                     "2021-03-01 10:00:00;7.1;x"]%string))
       = Some {| columns := ["Timestamp"; "Unit 1.pH1.PV [pH]"; "unknown1"]%string;
                 rows := [ [Str "2021-03-01 09:00:00"; Str "7.0"; NaN];
                           [Str "2021-03-01 10:00:00"; Str "7.1"; Str "x"] ] |}.
Proof.
  apply (repaired_section_is_not_normalized
           {| overwriting_risk := false; sections_dict := [] |}
           (Py.join Py.CRLF
              ["[TrackData1]"; "Timestamp;Unit 1.pH1.PV [pH]";
               "2021-03-01 09:00:00;7.0"; "2021-03-01 10:00:00;7.1;x"]%string)).
  - vm_compute. reflexivity.
  - vm_compute. reflexivity.
Defined.

(** ** Export: the name taken from the archive *)

Lemma rfind_app (p : ascii -> bool) (a b : list ascii) :
  Path.rfind p (a ++ b)
  = match Path.rfind p b with
    | 0 => Path.rfind p a
    | S i => List.length a + S i
    end.
Proof.
  induction a as [|c a IH]; simpl.
  - now destruct (Path.rfind p b).
  - rewrite IH. destruct (Path.rfind p b) as [|i]; [reflexivity|].
    now rewrite Nat.add_succ_r.
Qed.

Lemma rfind_none (p : ascii -> bool) (l : list ascii) :
  existsb p l = false -> Path.rfind p l = 0.
Proof.
  induction l as [|c l IH]; simpl; [reflexivity|].
  intros H. apply orb_false_iff in H as [Hc Hl]. now rewrite (IH Hl), Hc.
Qed.

(** X25. For a file name without a separator, made of a root that is not
    only dots, a dot and an extension without dot, [splitext_root] gives the
    root: the files of the archive [run1.zip] are named after [run1]. *)
Theorem splitext_root_of_file_name :
  forall root ext : string,
    existsb (fun c => Ascii.eqb c Path.SLASH || Ascii.eqb c Path.BACKSLASH)
            (Py.chars root ++ Py.chars ext) = false ->
    existsb (fun c => Ascii.eqb c Re.DOT) (Py.chars ext) = false ->
    existsb (fun c => negb (Ascii.eqb c Re.DOT)) (Py.chars root) = true ->
    Path.splitext_root (root @@ "." @@ ext) = root.
Proof.
  intros root ext Hsep Hdot Hroot. unfold Path.splitext_root.
  assert (Hchars : Py.chars (root @@ "." @@ ext)
                   = Py.chars root ++ Re.DOT :: Py.chars ext).
  { rewrite chars_append. f_equal. }
  rewrite Hchars.
  assert (Es : Path.rfind
                 (fun c => Ascii.eqb c Path.SLASH || Ascii.eqb c Path.BACKSLASH)
                 (Py.chars root ++ Re.DOT :: Py.chars ext) = 0).
  { apply rfind_none. rewrite existsb_app in *. simpl.
    apply orb_false_iff in Hsep as [-> ->]. reflexivity. }
  assert (Ed : Path.rfind (fun c => Ascii.eqb c Re.DOT)
                          (Py.chars root ++ Re.DOT :: Py.chars ext)
               = List.length (Py.chars root) + 1).
  { rewrite rfind_app. simpl. now rewrite (rfind_none _ _ Hdot). }
  rewrite Es, Ed.
  replace (List.length (Py.chars root) + 1 - 1 - 0)
    with (List.length (Py.chars root)) by lia.
  replace (List.length (Py.chars root) + 1 - 1)
    with (List.length (Py.chars root)) by lia.
  cbn [skipn]. rewrite firstn_app, firstn_all, Nat.sub_diag. cbn [firstn].
  rewrite app_nil_r, Hroot.
  replace (0 <? List.length (Py.chars root) + 1) with true
    by (symmetry; apply Nat.ltb_lt; lia).
  cbn [andb]. apply str_chars.
Qed.

Lemma splitext_root_of_file_name_witness :
  Path.splitext_root ("run1" @@ "." @@ "zip") = "run1"%string.
Proof.
  apply (splitext_root_of_file_name "run1" "zip"); reflexivity.
Defined.
